(** * LawWise backend (backend/server.js): a shallow embedding

    The repository ships two revisions of [backend/server.js]:

    - the translation revision (Sarvam AI translation and chat, with a Groq
      fallback), embedded in [Module Translation];
    - the session revision (an in-memory [documentContextStore] keyed by a
      uuid, purged by a 30 minute timer), embedded in [Module Session].

    JavaScript is embedded as follows.

    - An [async] function is a computation in the monad [M W]: it threads a
      world [W] (the store, the pending timers, the clock and the log of the
      requests sent to external services) and ends either by returning a
      value or by throwing ([outcome]).  [await] is monadic bind and
      [try { .. } catch (error) { .. }] is [try_catch].
    - External collaborators (pdf-parse, axios, the Groq SDK, uuid) are the
      fields of an environment record [env]; every request sent to one of
      them is appended to the log.
    - A request is what the handler receives once the middleware
      ([express.json()], multer) has parsed it.  The properties of a body
      are strings that may be missing where the statements are about what
      the client sends, and values of [Json.value] where they are about
      bodies of any shape; the conversions JavaScript then performs (to a
      property key, to a string, the call of a method the value lacks) are
      written out, with the [TypeError] they can throw.
    - [console.log] and [console.error] are not modelled: they have no
      influence on the values returned or on the store. *)

From Stdlib Require Import String Ascii List NArith Bool Lia.
From stdpp Require Import gmap strings list fin_maps pretty.
Import ListNotations.

Local Open Scope N_scope.

(** ** JavaScript values and strings *)

(** A thrown value.  Every error of the modelled code is an object (an
    [Error], an [AxiosError], a [TypeError]); the handlers only read its
    [message] property, which may be missing. *)
Record js_error := JsError { err_message : option string }.

Definition TypeError (msg : string) : js_error := JsError (Some msg).

(** The result of running a piece of JavaScript: a value or an exception. *)
Inductive outcome (A : Type) : Type :=
| Returned (a : A)
| Thrown (e : js_error).
Arguments Returned {A} a.
Arguments Thrown {A} e.

(** The double quote and the line feed, as one character strings. *)
Definition dq : string := String (ascii_of_N 34) EmptyString.
Definition lf : string := String (ascii_of_N 10) EmptyString.

(** [x || d] for a value that is a string or [undefined]: the empty string
    and [undefined] are the falsy ones. *)
Definition or_default (x : option string) (d : string) : string :=
  match x with
  | Some s => if decide (s = EmptyString) then d else s
  | None => d
  end.

(** [String.prototype.toLowerCase] on the ASCII letters.  Bytes above 127
    are left as they are: no non-ASCII character lower-cases to one of the
    letters x, r, e, f that the upload handler looks for. *)
Definition lower_ascii (c : ascii) : ascii :=
  let n := N_of_ascii c in
  if (65 <=? n) && (n <=? 90) then ascii_of_N (n + 32) else c.

Fixpoint toLowerCase (s : string) : string :=
  match s with
  | EmptyString => EmptyString
  | String c s' => String (lower_ascii c) (toLowerCase s')
  end.

(** [s.includes(sub)]. *)
Fixpoint includes (s sub : string) : bool :=
  if String.prefix sub s then true
  else match s with
       | EmptyString => false
       | String _ s' => includes s' sub
       end.

(** ** The monad of handlers *)

Section Monad.
Context {W : Type}.

Definition M (A : Type) : Type := W -> outcome A * W.

Definition ret {A} (a : A) : M A := fun w => (Returned a, w).

Definition throw {A} (e : js_error) : M A := fun w => (Thrown e, w).

Definition bind {A B} (m : M A) (k : A -> M B) : M B :=
  fun w =>
    match m w with
    | (Returned a, w') => k a w'
    | (Thrown e, w') => (Thrown e, w')
    end.

(** [try { body } catch (error) { handler }]: the effects of [body] up to
    the throw are kept. *)
Definition try_catch {A} (body : M A) (handler : js_error -> M A) : M A :=
  fun w =>
    match body w with
    | (Returned a, w') => (Returned a, w')
    | (Thrown e, w') => handler e w'
    end.

(** The answer of a collaborator, awaited. *)
Definition lift {A} (o : outcome A) : M A := fun w => (o, w).

End Monad.
Arguments M : clear implicits.

Declare Scope js_scope.
Delimit Scope js_scope with js.
Notation "'await' x <- m ; k" := (bind m (fun x => k))
  (at level 10, x name, m at level 100, k at level 200,
   format "'[v' 'await'  x  <-  m ; '/' k ']'") : js_scope.
Notation "'exec' m ; k" := (bind m (fun _ => k))
  (at level 10, m at level 100, k at level 200,
   format "'[v' 'exec'  m ; '/' k ']'") : js_scope.

(** ** Chat completions, as both providers return them *)

(** A message of the request: [{ role, content }]. *)
Module Msg.
Record t := mk { role : string; content : string }.
End Msg.

(** The part of a completion the code reads:
    [choices[0]?.message?.content]. *)
Record reply_message := { content : option string }.
Record choice := { message : option reply_message }.
Record completion := { choices : option (list choice) }.

(** [c.choices[0]?.message?.content]: indexing [choices] throws a
    [TypeError] when it is [undefined]; past that point the optional chain
    yields [undefined] for every missing link. *)
Definition first_choice_content (c : completion) : outcome (option string) :=
  match choices c with
  | None => Thrown (TypeError "Cannot read properties of undefined (reading '0')")
  | Some [] => Returned None
  | Some (ch :: _) =>
      Returned (match message ch with
                | None => None
                | Some m => content m
                end)
  end.

(** * The translation revision *)

Module Translation.

Definition SARVAM_BASE_URL : string := "https://api.sarvam.ai/v1".

(** The JSON body of the translate request. *)
Record translate_body := {
  input : string;
  source_language_code : string;
  target_language_code : string;
  speaker_gender : string
}.

(** [response.data] of the translate endpoint, as far as the code reads
    it: the [translated_text] property, when there is one. *)
Record translate_data := { translated_text : option string }.

(** The outside world during one call: what the two services answer.
    [None] for [response.data] stands for a response without a body. *)
Record env := {
  SARVAM_API_KEY : string;
  sarvam_translate : translate_body -> outcome (option translate_data);
  sarvam_chat : list Msg.t -> outcome (option completion);
  groq_create : list Msg.t -> outcome completion
}.

(** Requests sent to the services, in order. *)
Inductive call :=
| AxiosTranslate (url : string) (body : translate_body) (authorization : string)
| AxiosChat (url : string) (model : string) (messages : list Msg.t)
            (authorization : string)
| GroqCreate (messages : list Msg.t) (model : string).

Definition log := list call.

Definition emit (c : call) : M log unit := fun w => (Returned tt, w ++ [c]).

Section WithEnv.
Context (E : env).
Local Open Scope js_scope.

(** [translateText(text, targetLanguageCode, sourceLanguageCode)]. *)
Definition translateText (text targetLanguageCode sourceLanguageCode : string)
  : M log string :=
  try_catch
    (if decide (targetLanguageCode = "en-IN") then ret text
     else
       let body := {| input := text;
                      source_language_code := sourceLanguageCode;
                      target_language_code := targetLanguageCode;
                      speaker_gender := "Male" |} in
       exec emit (AxiosTranslate (SARVAM_BASE_URL +:+ "/translate") body
                    ("Bearer " +:+ SARVAM_API_KEY E));
       await response <- lift (sarvam_translate E body);
       match response with
       | None =>
           throw (TypeError
             "Cannot read properties of undefined (reading 'translated_text')")
       | Some data => ret (or_default (translated_text data) text)
       end)
    (fun error => ret text).

(** [getGroqAnalysis(messages)], the fallback provider. *)
Definition getGroqAnalysis (messages : list Msg.t) : M log string :=
  try_catch
    (exec emit (GroqCreate messages "llama3-8b-8192");
     await completion <- lift (groq_create E messages);
     await c <- lift (first_choice_content completion);
     ret (or_default c "I was unable to analyze the document."))
    (fun error =>
       ret "Sorry, I encountered an error while analyzing the document with the AI service.").

(** [getSarvamChatResponse(messages)], the primary provider. *)
Definition getSarvamChatResponse (messages : list Msg.t) : M log string :=
  try_catch
    (exec emit (AxiosChat (SARVAM_BASE_URL +:+ "/chat/completions") "sarvam-m"
                  messages ("Bearer " +:+ SARVAM_API_KEY E));
     await response <- lift (sarvam_chat E messages);
     match response with
     | None =>
         throw (TypeError "Cannot read properties of undefined (reading 'choices')")
     | Some data =>
         await c <- lift (first_choice_content data);
         ret (or_default c "I was unable to process your request.")
     end)
    (fun error => getGroqAnalysis messages).

End WithEnv.

End Translation.

(** * Parsed JSON bodies *)

(** [express.json()] hands a route whatever JSON the client sent: a
    property of [req.body] need not be a string. *)
Module Json.

(** A parsed JSON value.  A number is given by what the code observes of
    it: whether it is zero, and the string JavaScript converts it to. *)
#[warnings="-register-all"]
Inductive value :=
| Null
| Boolean (b : bool)
| Number (zero : bool) (digits : string)
| Str (s : string)
| Array (items : list value)
| Object (fields : list (string * value)).

(** Truthiness, as [!v] tests it: [null], [false], [0] and the empty string
    are the falsy ones. *)
Definition truthy (v : value) : bool :=
  match v with
  | Null => false
  | Boolean b => b
  | Number zero _ => negb zero
  | Str s => if decide (s = EmptyString) then false else true
  | Array _ => true
  | Object _ => true
  end.

(** [a.join(sep)] on strings. *)
Fixpoint join (sep : string) (l : list string) : string :=
  match l with
  | [] => EmptyString
  | [x] => x
  | x :: rest => x +:+ sep +:+ join sep rest
  end.

(** The conversion of a value to a string, as a property key
    ([o[v]]) and as a template literal ([`${v}`]) perform it.  An array is
    joined with commas, [null] elements giving the empty string.  An object
    is converted by its [toString] method: inherited from
    [Object.prototype] it gives [[object Object]]; an own property of that
    name, which in parsed JSON is never a function, hides it, the inherited
    [valueOf] returns the object itself, and the conversion throws a
    [TypeError]. *)
Fixpoint to_string (v : value) : outcome string :=
  match v with
  | Null => Returned "null"
  | Boolean b => Returned (if b then "true" else "false")
  | Number _ digits => Returned digits
  | Str s => Returned s
  | Array items =>
      let fix elements (l : list value) : outcome (list string) :=
        match l with
        | [] => Returned []
        | x :: rest =>
            match (match x with Null => Returned EmptyString | _ => to_string x end) with
            | Thrown e => Thrown e
            | Returned s =>
                match elements rest with
                | Thrown e => Thrown e
                | Returned ss => Returned (s :: ss)
                end
            end
        end in
      match elements items with
      | Thrown e => Thrown e
      | Returned ss => Returned (join "," ss)
      end
  | Object fields =>
      if decide ("toString" ∈ fields.*1)
      then Thrown (TypeError "Cannot convert object to primitive value")
      else Returned "[object Object]"
  end.

End Json.

(** * The session revision *)

Module Session.

(** ** The store: a plain JavaScript object *)

(** [documentContextStore] is created by the literal [{}]: its prototype is
    [Object.prototype], so reading a key that is not an own property finds
    the members of [Object.prototype].  These are their names. *)
Definition object_prototype_keys : list string :=
  [ "constructor"; "__defineGetter__"; "__defineSetter__"; "hasOwnProperty";
    "__lookupGetter__"; "__lookupSetter__"; "isPrototypeOf";
    "propertyIsEnumerable"; "toString"; "valueOf"; "__proto__";
    "toLocaleString" ].

(** What [documentContextStore[key]] can evaluate to: [undefined], a stored
    document text, or the inherited member of that name (a function, or
    [Object.prototype] itself for [__proto__]). *)
Inductive jsval :=
| JUndefined
| JString (s : string)
| JInherited (name : string).

(** Truthiness, as [!documentText] tests it. *)
Definition truthy (v : jsval) : bool :=
  match v with
  | JUndefined => false
  | JString s => if decide (s = EmptyString) then false else true
  | JInherited _ => true
  end.

(** The string a template literal interpolates for a value. *)
Definition to_string (v : jsval) : string :=
  match v with
  | JUndefined => "undefined"
  | JString s => s
  | JInherited name =>
      if decide (name = "__proto__") then "[object Object]"
      else if decide (name = "constructor")
           then "function Object() { [native code] }"
           else "function " +:+ name +:+ "() { [native code] }"
  end.

(** [o[k]]: own properties first, then the prototype. *)
Definition js_get (o : gmap string string) (k : string) : jsval :=
  match o !! k with
  | Some s => JString s
  | None => if decide (k ∈ object_prototype_keys) then JInherited k else JUndefined
  end.

(** [o[k] = v] for a string [v]: it creates or overwrites an own property,
    except for the key [__proto__], whose inherited setter ignores a value
    that is neither an object nor [null]. *)
Definition js_set (o : gmap string string) (k v : string) : gmap string string :=
  if decide (k = "__proto__") then o else <[k := v]> o.

(** [delete o[k]]: removes the own property, if any; never throws here. *)
Definition js_delete (o : gmap string string) (k : string) : gmap string string :=
  delete k o.

(** ** State *)

(** The process state the handlers share: the store, the pending timers
    (due time in milliseconds and the [sessionId] their callback closes
    over, in the order they were set) and the clock. *)
Record state := State {
  documentContextStore : gmap string string;
  timers : list (N * string);
  now : N
}.

Definition init : state :=
  {| documentContextStore := ∅; timers := []; now := 0 |}.

(** [{ text, numpages }] of pdf-parse. *)
Record pdf_data := { text : string; numpages : N }.

(** The outside world during one request: what pdf-parse makes of a
    buffer, the identifier [uuidv4()] draws, what Groq answers. *)
Record env := {
  pdf : string -> outcome pdf_data;
  uuidv4 : string;
  groq_create : list Msg.t -> outcome completion
}.

(** Requests sent to the collaborators, in order. *)
Inductive call :=
| PdfParse (buffer : string)
| GroqCreate (messages : list Msg.t) (model : string).

Record world := World { w_state : state; w_calls : list call }.

Definition emit (c : call) : M world unit :=
  fun w => (Returned tt, World (w_state w) (w_calls w ++ [c])).

(** [documentContextStore[sessionId]]. *)
Definition store_read (sessionId : string) : M world jsval :=
  fun w => (Returned (js_get (documentContextStore (w_state w)) sessionId), w).

(** [documentContextStore[sessionId] = documentText]. *)
Definition store_write (sessionId documentText : string) : M world unit :=
  fun w =>
    let s := w_state w in
    (Returned tt,
     World {| documentContextStore := js_set (documentContextStore s) sessionId documentText;
              timers := timers s;
              now := now s |}
           (w_calls w)).

(** The callback of the timer: [delete documentContextStore[sessionId]]. *)
Definition expire (sessionId : string) (s : state) : state :=
  {| documentContextStore := js_delete (documentContextStore s) sessionId;
     timers := timers s;
     now := now s |}.

(** [setTimeout(() => { delete documentContextStore[sessionId]; }, delay)]. *)
Definition setTimeout_expire (sessionId : string) (delay : N) : M world unit :=
  fun w =>
    let s := w_state w in
    (Returned tt,
     World {| documentContextStore := documentContextStore s;
              timers := timers s ++ [(now s + delay, sessionId)];
              now := now s |}
           (w_calls w)).

(** [1000 * 60 * 30]: thirty minutes. *)
Definition TTL : N := 1000 * 60 * 30.

(** Time passes by [dt] milliseconds: the timers that are due by then run,
    in the order they were set, and leave the list. *)
Definition advance (dt : N) (s : state) : state :=
  let t := now s + dt in
  let fired := filter (λ tm, tm.1 ≤ t) (timers s) in
  {| documentContextStore :=
       documentContextStore (fold_left (λ acc tm, expire tm.2 acc) fired s);
     timers := filter (λ tm, ¬ tm.1 ≤ t) (timers s);
     now := t |}.

(** ** Prompts *)

Definition initialAnalysisSystemPrompt : string :=
"
You are LawWise, a helpful legal assistant chatbot. Your purpose is to help non-lawyers understand legal documents.
You will be given the text extracted from a user's document.
Your instructions are:
1. Identify what type of document it is (e.g., rental agreement, employment contract, NDA).
2. Provide a brief, easy-to-understand summary of the document's main purpose.
3. Highlight 2-3 of the most important clauses, rights, or obligations for the user in a bulleted list.
4. Ask the user what specific questions they have about the document.
5. IMPORTANT: Always include this disclaimer at the very end: " +:+ dq +:+
"Disclaimer: I am an AI assistant and this is not legal advice. Please consult with a qualified legal professional." +:+ dq +:+ "
".

Definition followUpSystemPrompt : string :=
"
You are LawWise, a helpful legal assistant. The user has already uploaded a document, and you have its full text. Now, the user is asking a follow-up question about it.
Your task is to answer the user's question based *only* on the provided document context.
Do not make up information. If the answer is not in the document, say so.
Keep your answers concise and easy to understand.
".

Definition dq3 : string := dq +:+ dq +:+ dq.

Definition initial_messages (documentText : string) : list Msg.t :=
  [ Msg.mk "system" initialAnalysisSystemPrompt;
    Msg.mk "user"
      ("Here is the legal document I need help understanding. Please provide a summary based on your instructions. Document Text: "
       +:+ dq3 +:+ documentText +:+ dq3) ].

Definition followup_messages (documentText : jsval) (question : string) : list Msg.t :=
  [ Msg.mk "system" followUpSystemPrompt;
    Msg.mk "user"
      ("Here is the full document text for context: " +:+ dq3
       +:+ to_string documentText +:+ dq3 +:+ lf +:+ lf
       +:+ "Now, please answer my specific question: " +:+ dq +:+ question +:+ dq) ].

(** ** Requests and responses *)

(** The request as the upload handler receives it: [req.file], which
    [upload.single('pdfFile')] has set to the uploaded file (here its
    buffer) or left [undefined] before it calls the handler.  When multer
    refuses the form instead (a file under another field name, a second
    file), it does not call the handler and Express answers in its place:
    that is no run of the handler, and no value of this type. *)
Record upload_request := { file : option string }.

(** [req.body] of the chat route when its two properties are strings or
    missing, as the client sends them.  Other JSON values are the subject
    of [chat_handler_json] below. *)
Record chat_body := { sessionId : option string; question : option string }.

(** The JSON the routes answer with. *)
Inductive json :=
| JsonError (error : string)
| JsonUpload (message sessionId : string)
| JsonMessage (message : string).

Record response := { status : N; body : json }.

(** [!x] for a string that may be missing. *)
Definition falsy (x : option string) : bool :=
  match x with
  | Some s => if decide (s = EmptyString) then true else false
  | None => true
  end.

(** [!x] for a property of a parsed body, which may be missing. *)
Definition falsy_value (x : option Json.value) : bool :=
  match x with
  | Some v => negb (Json.truthy v)
  | None => true
  end.

Section WithEnv.
Context (E : env).
Local Open Scope js_scope.

(** [getInitialAIAnalysis(documentText)]. *)
Definition getInitialAIAnalysis (documentText : string) : M world string :=
  exec emit (GroqCreate (initial_messages documentText) "llama-3.3-70b-versatile");
  await completion <- lift (groq_create E (initial_messages documentText));
  await c <- lift (first_choice_content completion);
  ret (or_default c "I was unable to analyze the document.").

(** [getFollowUpAIResponse(documentText, question)]. *)
Definition getFollowUpAIResponse (documentText : jsval) (question : string)
  : M world string :=
  exec emit (GroqCreate (followup_messages documentText question)
               "llama-3.3-70b-versatile");
  await completion <- lift (groq_create E (followup_messages documentText question));
  await c <- lift (first_choice_content completion);
  ret (or_default c "Sorry, I couldn't find an answer to that question.").

(** [error.message && error.message.toLowerCase().includes('xref')]. *)
Definition mentions_xref (error : js_error) : bool :=
  match err_message error with
  | Some m => if decide (m = EmptyString) then false
              else includes (toLowerCase m) "xref"
  | None => false
  end.

(** The handler of [POST /api/upload]. *)
Definition upload_handler (req : upload_request) : M world response :=
  match file req with
  | None => ret {| status := 400; body := JsonError "No PDF file uploaded." |}
  | Some buffer =>
      try_catch
        (exec emit (PdfParse buffer);
         await data <- lift (pdf E buffer);
         let documentText := text data in
         let sessionId := uuidv4 E in
         exec store_write sessionId documentText;
         exec setTimeout_expire sessionId TTL;
         await aiSummary <- getInitialAIAnalysis documentText;
         ret {| status := 200; body := JsonUpload aiSummary sessionId |})
        (fun error =>
           if mentions_xref error
           then ret {| status := 400;
                       body := JsonError "The uploaded PDF appears to be corrupted. Please re-save it and try again." |}
           else ret {| status := 500;
                       body := JsonError "Failed to process the PDF file." |})
  end.

(** The handler of [POST /api/chat]. *)
Definition chat_handler (req : chat_body) : M world response :=
  if falsy (sessionId req) || falsy (question req)
  then ret {| status := 400;
              body := JsonError "Session ID and question are required." |}
  else
    let id := default EmptyString (sessionId req) in
    let q := default EmptyString (question req) in
    await documentText <- store_read id;
    if negb (truthy documentText)
    then ret {| status := 404;
                body := JsonError "Your document session has expired or is invalid. Please upload the document again." |}
    else
      try_catch
        (await aiResponse <- getFollowUpAIResponse documentText q;
         ret {| status := 200; body := JsonMessage aiResponse |})
        (fun error =>
           ret {| status := 500;
                  body := JsonError "Failed to get a response from the AI." |}).

(** The same handler, on a body whose two properties are any JSON values.
    [documentContextStore[sessionId]] converts [sessionId] to a property
    key, outside the [try]; the template literal of
    [getFollowUpAIResponse] converts [question] to a string, inside it. *)
Definition chat_handler_json (sessionId question : option Json.value)
  : M world response :=
  if falsy_value sessionId || falsy_value question
  then ret {| status := 400;
              body := JsonError "Session ID and question are required." |}
  else
    await key <- lift (Json.to_string (default Json.Null sessionId));
    await documentText <- store_read key;
    if negb (truthy documentText)
    then ret {| status := 404;
                body := JsonError "Your document session has expired or is invalid. Please upload the document again." |}
    else
      try_catch
        (await q <- lift (Json.to_string (default Json.Null question));
         await aiResponse <- getFollowUpAIResponse documentText q;
         ret {| status := 200; body := JsonMessage aiResponse |})
        (fun error =>
           ret {| status := 500;
                  body := JsonError "Failed to get a response from the AI." |}).

End WithEnv.

(** ** Runs of the server *)

(** What happens to the process, one event at a time: a request is served
    (with the outside world as it is during that request) or time passes. *)
Inductive event :=
| Upload (E : env) (req : upload_request)
| Chat (E : env) (req : chat_body)
| Advance (dt : N).

(** A handler started in state [s], with an empty log. *)
Definition serve {A} (m : M world A) (s : state) : outcome A * world :=
  m (World s []).

Definition step (s : state) (ev : event) : state :=
  match ev with
  | Upload E req => w_state (serve (upload_handler E req) s).2
  | Chat E req => w_state (serve (chat_handler E req) s).2
  | Advance dt => advance dt s
  end.

Definition run (evs : list event) (s : state) : state := fold_left step evs s.

Definition reachable (s : state) : Prop := ∃ evs, s = run evs init.

(** The identifier an event draws from [uuidv4], if it is an upload. *)
Definition drawn (ev : event) : option string :=
  match ev with
  | Upload E _ => Some (uuidv4 E)
  | _ => None
  end.

(** ** The shape of a version 4 uuid *)

Definition is_hex (c : ascii) : bool :=
  let n := N_of_ascii c in
  ((48 <=? n) && (n <=? 57)) || ((97 <=? n) && (n <=? 102)).

(** Position by position: dashes at 8, 13, 18 and 23, the version digit 4
    at 14, the variant digit at 19, lower-case hexadecimal digits
    elsewhere. *)
Fixpoint uuid_shape (i : nat) (s : string) : bool :=
  match s with
  | EmptyString => true
  | String c s' =>
      (if bool_decide (i ∈ [8; 13; 18; 23]%nat) then bool_decide (c = "-"%char)
       else if bool_decide (i = 14%nat) then bool_decide (c = "4"%char)
       else if bool_decide (i = 19%nat)
            then bool_decide (c ∈ ["8"; "9"; "a"; "b"]%char)
            else is_hex c)
      && uuid_shape (S i) s'
  end.

(** What [uuidv4()] returns: 36 characters of that shape. *)
Definition is_uuid_v4 (s : string) : bool :=
  bool_decide (String.length s = 36%nat) && uuid_shape 0 s.

End Session.

(** * The chat area of the session revision (components/ChatArea.tsx)

    Strings stand for their UTF-8 encoding.  React state is threaded as a
    record; the calls into the chat context and to [fetch] are logged in
    order.  A state update is visible to what runs after it: the handlers
    below read each piece of state before they write it, so this agrees
    with React's deferred updates. *)

(** [!s.trim()]: the string consists of white space and line terminators
    only (tab, line feed, vertical tab, form feed, carriage return, space,
    and the Unicode ones: U+00A0, U+1680, U+2000 to U+200A, U+2028,
    U+2029, U+202F, U+205F, U+3000, U+FEFF). *)
Fixpoint is_blank (s : string) : bool :=
  match s with
  | EmptyString => true
  | String c rest =>
      let n := N_of_ascii c in
      if ((9 <=? n) && (n <=? 13)) || (n =? 32) then is_blank rest
      else
        match rest with
        | String c2 rest2 =>
            let n2 := N_of_ascii c2 in
            if (n =? 194) && (n2 =? 160) then is_blank rest2
            else
              match rest2 with
              | String c3 rest3 =>
                  let n3 := N_of_ascii c3 in
                  if ((n =? 225) && (n2 =? 154) && (n3 =? 128))
                     || ((n =? 226) && (n2 =? 128)
                         && (((128 <=? n3) && (n3 <=? 138))
                             || (n3 =? 168) || (n3 =? 169) || (n3 =? 175)))
                     || ((n =? 226) && (n2 =? 129) && (n3 =? 159))
                     || ((n =? 227) && (n2 =? 128) && (n3 =? 128))
                     || ((n =? 239) && (n2 =? 187) && (n3 =? 191))
                  then is_blank rest3
                  else false
              | EmptyString => false
              end
        | EmptyString => false
        end
  end.

(** [l.join(sep)]. *)
Fixpoint join (sep : string) (l : list string) : string :=
  match l with
  | [] => EmptyString
  | [x] => x
  | x :: rest => x +:+ sep +:+ join sep rest
  end.

(** A [File] of the browser. *)
Module File.
Record t := mk { name : string; lastModified : N; type : string; size : N; bytes : string }.
End File.

(** [FileAttachment] of components/ui/file-upload.tsx. *)
Module FileAttachment.
Record t := mk {
  id : string;
  name : string;
  type : string;
  size : N;
  file : File.t;
  url : string
}.
End FileAttachment.

Module Client.

(** The properties the client reads in the JSON of an answer. *)
Record json_reply := {
  error : option string;
  message : option string;
  sessionId : option string
}.

(** A [Response] of [fetch]: [response.ok], and what [response.json()]
    resolves to (it rejects when the body is not JSON). *)
Record http_response := { ok : bool; json : outcome json_reply }.

(** The two requests of the chat area. *)
Inductive request :=
| PostUpload (url : string) (pdfFile : File.t)
| PostChat (url : string) (sessionId question : string).

(** What surrounds the component during one handler: the network, the
    chat context ([currentChat] is there or not) and the browser's
    [URL.createObjectURL]. *)
Record env := {
  fetch : request -> outcome http_response;
  currentChat : bool;
  createObjectURL : File.t -> string
}.

(** The [useState] cells of [ChatArea]. *)
Record state := State {
  inputValue : string;
  selectedFiles : list FileAttachment.t;
  isProcessing : bool;
  showChat : bool;
  currentDocSessionId : option string
}.

(** Calls that leave the component, in order.  The content of a message
    is [None] when the value passed is [undefined]. *)
Inductive effect :=
| Fetch (r : request)
| CreateNewChat
| AddMessage (content : option string) (isUser : bool)
| ClearAllChats
| CreateObjectURL (f : File.t)
| PreventDefault.

Record world := World { ui : state; effects : list effect }.

Definition emit (e : effect) : M world unit :=
  fun w => (Returned tt, World (ui w) (effects w ++ [e])).

Definition read {A} (f : state -> A) : M world A :=
  fun w => (Returned (f (ui w)), w).

Definition update (f : state -> state) : M world unit :=
  fun w => (Returned tt, World (f (ui w)) (effects w)).

Definition setInputValue (v : string) : M world unit :=
  update (fun c => State v (selectedFiles c) (isProcessing c) (showChat c)
                     (currentDocSessionId c)).

Definition setSelectedFiles (v : list FileAttachment.t) : M world unit :=
  update (fun c => State (inputValue c) v (isProcessing c) (showChat c)
                     (currentDocSessionId c)).

Definition setIsProcessing (v : bool) : M world unit :=
  update (fun c => State (inputValue c) (selectedFiles c) v (showChat c)
                     (currentDocSessionId c)).

Definition setShowChat (v : bool) : M world unit :=
  update (fun c => State (inputValue c) (selectedFiles c) (isProcessing c) v
                     (currentDocSessionId c)).

Definition setCurrentDocSessionId (v : option string) : M world unit :=
  update (fun c => State (inputValue c) (selectedFiles c) (isProcessing c)
                     (showChat c) v).

(** [error instanceof Error ? error.message : 'Unknown error']: a thrown
    value with a message is an [Error]. *)
Definition error_text (error : js_error) : string :=
  match err_message error with
  | Some m => m
  | None => "Unknown error"
  end.

Section WithEnv.
Context (E : env).
Local Open Scope js_scope.

(** [await fetch(..)], logged. *)
Definition do_fetch (r : request) : M world http_response :=
  exec emit (Fetch r);
  lift (fetch E r).

(** [uploadAndProcessFile(attachment)]. *)
Definition uploadAndProcessFile (attachment : FileAttachment.t) : M world string :=
  try_catch
    (await response <-
       do_fetch (PostUpload "http://localhost:5000/api/upload"
                   (FileAttachment.file attachment));
     if negb (ok response)
     then
       await err <- lift (json response);
       throw (JsError (Some (or_default (error err) "Upload failed")))
     else
       await result <- lift (json response);
       exec (if Session.falsy (sessionId result) then ret tt
             else setCurrentDocSessionId (sessionId result));
       ret (or_default (message result) "Document analysis complete."))
    (fun error => ret ("Error processing file: " +:+ error_text error)).

(** [handleFollowUpQuestion(question)].  What it resolves to is
    [result.message], which is [undefined] when the answer has none. *)
Definition handleFollowUpQuestion (question : string) : M world (option string) :=
  await id <- read currentDocSessionId;
  if Session.falsy id
  then ret (Some "Document context lost. Please upload the document again.")
  else
    try_catch
      (await response <-
         do_fetch (PostChat "http://localhost:5000/api/chat"
                     (default EmptyString id) question);
       if negb (ok response)
       then
         await err <- lift (json response);
         throw (JsError (Some (or_default (error err) "Failed to get a response")))
       else
         await result <- lift (json response);
         ret (message result))
      (fun error => ret (Some ("Error getting answer: " +:+ error_text error))).

(** [handleSendMessage()]. *)
Definition handleSendMessage : M world unit :=
  await currentInput <- read inputValue;
  await currentFiles <- read selectedFiles;
  await busy <- read isProcessing;
  if (is_blank currentInput && bool_decide (length currentFiles = 0%nat)) || busy
  then ret tt
  else
    exec setIsProcessing true;
    exec (if negb (currentChat E) then emit CreateNewChat else ret tt);
    exec setShowChat true;
    let userMessageContent :=
      or_default (Some currentInput)
        ("Uploaded: " +:+ join ", " (map FileAttachment.name currentFiles)) in
    exec emit (AddMessage (Some userMessageContent) true);
    exec setInputValue EmptyString;
    exec setSelectedFiles [];
    await aiResponseContent <-
      match currentFiles with
      | attachment :: _ =>
          await r <- uploadAndProcessFile attachment;
          ret (Some r)
      | [] => handleFollowUpQuestion currentInput
      end;
    exec emit (AddMessage aiResponseContent false);
    setIsProcessing false.

(** [handleKeyPress(e)], for a key event [{ key, shiftKey }]. *)
Definition handleKeyPress (key : string) (shiftKey : bool) : M world unit :=
  if bool_decide (key = "Enter") && negb shiftKey
  then
    exec emit PreventDefault;
    handleSendMessage
  else ret tt.

(** [handleClearChat()]. *)
Definition handleClearChat : M world unit :=
  exec emit ClearAllChats;
  exec setCurrentDocSessionId None;
  setShowChat false.

(** [handleTryDemo()]. *)
Definition handleTryDemo : M world unit :=
  exec emit CreateNewChat;
  setShowChat true.

(** [onRemoveFile]: [setSelectedFiles(prev => prev.filter(f => f.id !== fileId))]. *)
Definition onRemoveFile (fileId : string) : M world unit :=
  await prev <- read selectedFiles;
  setSelectedFiles (List.filter (fun f => negb (String.eqb (FileAttachment.id f) fileId)) prev).

(** One attachment, as [onDrop] of [FileUpload] builds it. *)
Definition attach (f : File.t) : M world FileAttachment.t :=
  exec emit (CreateObjectURL f);
  ret (FileAttachment.mk (File.name f +:+ "-" +:+ pretty (File.lastModified f))
         (File.name f) (File.type f) (File.size f) f (createObjectURL E f)).

Fixpoint attach_all (files : list File.t) : M world (list FileAttachment.t) :=
  match files with
  | [] => ret []
  | f :: rest =>
      await a <- attach f;
      await l <- attach_all rest;
      ret (a :: l)
  end.

(** [onDrop(acceptedFiles)] of [FileUpload], with [onFilesSelected] bound
    to [setSelectedFiles] as [ChatArea] passes it. *)
Definition onDrop (acceptedFiles : list File.t) : M world unit :=
  await newFileAttachments <- attach_all acceptedFiles;
  setSelectedFiles (take 1 newFileAttachments).

End WithEnv.

End Client.

(** ** The client and the server of the session revision, connected *)

(** [res.status(s).json(b)] as [fetch] receives it. *)
Definition wire (r : Session.response) : Client.http_response :=
  {| Client.ok := (200 <=? Session.status r) && (Session.status r <? 300);
     Client.json :=
       Returned
         match Session.body r with
         | Session.JsonError e =>
             {| Client.error := Some e; Client.message := None; Client.sessionId := None |}
         | Session.JsonUpload m sid =>
             {| Client.error := None; Client.message := Some m; Client.sessionId := Some sid |}
         | Session.JsonMessage m =>
             {| Client.error := None; Client.message := Some m; Client.sessionId := None |}
         end |}.

Definition wire_outcome (o : outcome Session.response) : outcome Client.http_response :=
  match o with
  | Returned r => Returned (wire r)
  | Thrown e => Thrown e
  end.

(** The server in state [s], as the client's [fetch] sees it on port 5000:
    multer hands the file of the form to the upload route, and
    [express.json()] the two properties of the body to the chat route. *)
Definition served (E : Session.env) (s : Session.state)
  : Client.request -> outcome Client.http_response :=
  fun r =>
    match r with
    | Client.PostUpload url pdfFile =>
        if decide (url = "http://localhost:5000/api/upload")
        then wire_outcome
               (Session.serve
                  (Session.upload_handler E {| Session.file := Some (File.bytes pdfFile) |}) s).1
        else Thrown (TypeError "Failed to fetch")
    | Client.PostChat url sessionId question =>
        if decide (url = "http://localhost:5000/api/chat")
        then wire_outcome
               (Session.serve
                  (Session.chat_handler E
                     {| Session.sessionId := Some sessionId;
                        Session.question := Some question |}) s).1
        else Thrown (TypeError "Failed to fetch")
    end.

(** The events the server goes through for a request of the client. *)
Definition arrival (E : Session.env) (r : Client.request) : Session.event :=
  match r with
  | Client.PostUpload _ pdfFile =>
      Session.Upload E {| Session.file := Some (File.bytes pdfFile) |}
  | Client.PostChat _ sessionId question =>
      Session.Chat E {| Session.sessionId := Some sessionId;
                        Session.question := Some question |}
  end.

(** * The routes of the translation revision *)

Module Multilingual.

(** [LANGUAGES], the supported languages and their codes. *)
Definition LANGUAGES : list (string * string) :=
  [ ("English", "en-IN"); ("Hindi", "hi-IN"); ("Gujarati", "gu-IN");
    ("Bengali", "bn-IN"); ("Kannada", "kn-IN"); ("Punjabi", "pa-IN") ].

(** What [LANGUAGES[language] || LANGUAGES['English']] can evaluate to: a
    code of the table, or the member of [Object.prototype] that
    [language] names ([LANGUAGES] is an object literal too). *)
Inductive code :=
| Code (c : string)
| Inherited (name : string).

#[global] Instance code_eq_dec : EqDecision code.
Proof. solve_decision. Defined.

(** The own property of [LANGUAGES] of that name. *)
Fixpoint own_code (table : list (string * string)) (language : string) : option string :=
  match table with
  | [] => None
  | (name, c) :: rest => if decide (name = language) then Some c else own_code rest language
  end.

(** [LANGUAGES[language] || LANGUAGES['English']]: every code of the table
    and every inherited member is truthy. *)
Definition language_code (language : string) : code :=
  match own_code LANGUAGES language with
  | Some c => Code c
  | None =>
      if decide (language ∈ Session.object_prototype_keys) then Inherited language
      else Code "en-IN"
  end.

(** The body [translateText] hands to [axios.post], before axios
    serialises it. *)
Record translate_body := {
  input : string;
  source_language_code : code;
  target_language_code : code;
  speaker_gender : string
}.

(** The outside world during one request. *)
Record env := {
  SARVAM_API_KEY : string;
  sarvam_translate : translate_body -> outcome (option Translation.translate_data);
  sarvam_chat : list Msg.t -> outcome (option completion);
  groq_create : list Msg.t -> outcome completion;
  pdf : string -> outcome Session.pdf_data
}.

(** The same world, for the functions of [Translation], whose language
    codes are strings. *)
Definition services (E : env) : Translation.env :=
  {| Translation.SARVAM_API_KEY := SARVAM_API_KEY E;
     Translation.sarvam_translate := fun b =>
       sarvam_translate E
         {| input := Translation.input b;
            source_language_code := Code (Translation.source_language_code b);
            target_language_code := Code (Translation.target_language_code b);
            speaker_gender := Translation.speaker_gender b |};
     Translation.sarvam_chat := sarvam_chat E;
     Translation.groq_create := groq_create E |}.

(** Requests sent to the collaborators, in order. *)
Inductive call :=
| Service (c : Translation.call)
| AxiosTranslate (url : string) (body : translate_body) (authorization : string)
| PdfParse (buffer : string).

Definition log := list call.

Definition emit (c : call) : M log unit := fun w => (Returned tt, w ++ [c]).

(** A function of [Translation], run inside a route: its requests join
    the log of the route. *)
Definition via {A} (m : M Translation.log A) : M log A :=
  fun w => let (o, l) := m [] in (o, w ++ map Service l).

(** The prompt of the assistant. *)
Definition systemPrompt : string :=
"
You are LawWise, a helpful legal assistant chatbot. Your purpose is to help normal, non-law people understand legal documents in plain and simple language. You will be given the text extracted from a user's document. Your instructions are:
1. Read and interpret the document text.
2. Identify what type of document it is (e.g., rental agreement, employment contract, NDA).
3. Provide a brief, easy-to-understand summary of the document's main purpose.
4. Highlight 2-3 of the most important clauses, rights, or obligations for the user.
5. Ask the user what specific questions they have about the document.
6. Dont include multiple special characters or bold letters in your response, but a few are fine.
7. IMPORTANT: Always include this disclaimer at the very end of your response: " +:+ dq +:+
"Disclaimer: I am an AI assistant and this is not legal advice. Please consult with a qualified legal professional for your specific situation." +:+ dq +:+ "
".

(** [req.file] of multer. *)
Module UploadedFile.
Record t := mk { buffer : string; originalname : string }.
End UploadedFile.

(** The request of the upload route as the handler receives it from
    multer for a multipart form, which is what the client sends:
    [req.file] and the two properties of [req.body], which are strings (the
    text fields of a form) or missing. *)
Module UploadReq.
Record t := mk {
  file : option UploadedFile.t;
  language : option string;
  userQuestion : option string
}.
End UploadReq.

(** An entry of [chatHistory], as the client sends it: an object whose
    [role] and [content] are strings and whose [language] is a string or
    missing. *)
Module HistoryItem.
Record t := mk { role : string; content : string; language : option string }.
End HistoryItem.

(** A well-formed [req.body] of the chat route, as the client sends it:
    [message] and [language] are strings or missing, [chatHistory] is an
    array of entries or missing.  A [message] and a [language] that are
    other JSON values are the subject of [chat_handler_json] below.  A
    [chatHistory] that is not such an array is outside the model: [null]
    or an entry that is [null], for one, makes the loop throw inside the
    [try], and the route answers 500. *)
Module ChatReq.
Record t := mk {
  message : option string;
  chatHistory : option (list HistoryItem.t);
  language : option string
}.
End ChatReq.

(** [req.body] of the text analysis route when its properties are strings
    or missing.  Other JSON values are the subject of
    [analyze_text_handler_json] below. *)
Module AnalyzeReq.
Record t := mk { userText : option string; language : option string }.
End AnalyzeReq.

(** [req.body] of the translation route when its properties are strings
    or missing.  Other JSON values are the subject of
    [translate_handler_json] below. *)
Module TranslateReq.
Record t := mk {
  text : option string;
  targetLanguage : option string;
  sourceLanguage : option string
}.
End TranslateReq.

(** The JSON the routes answer with. *)
Inductive json :=
| JsonError (error : string)
| JsonUpload (message : string) (pages : N)
             (fileName language originalUserQuestion translatedUserQuestion : string)
| JsonChat (message language originalUserMessage translatedUserMessage
            englishAIResponse : string)
| JsonAnalysis (message language originalUserText translatedUserText
                englishAIResponse : string)
| JsonTranslation (originalText translatedText sourceLanguage targetLanguage : string).

Record response := { status : N; body : json }.

(** [!x || !x.trim()] for a string that may be missing. *)
Definition missing_or_blank (x : option string) : bool :=
  match x with
  | Some s => is_blank s
  | None => true
  end.

(** The answers of the chat, text analysis and translation routes to a
    body whose properties are any JSON values: the languages of the body
    are repeated as they came. *)
Inductive json_echo :=
| EchoError (error : string)
| EchoChat (message : string) (language : Json.value)
           (originalUserMessage translatedUserMessage englishAIResponse : string)
| EchoAnalysis (message : string) (language : Json.value)
               (originalUserText translatedUserText englishAIResponse : string)
| EchoTranslation (originalText translatedText : string)
                  (sourceLanguage targetLanguage : Json.value).

Record response_echo := { echo_status : N; echo_body : json_echo }.

(** [!x || !x.trim()] for a property [x] of a parsed body, which may be
    missing: a truthy value that is not a string has no [trim] method, and
    calling it throws a [TypeError]. *)
Definition missing_or_blank_value (name : string) (x : option Json.value)
  : outcome bool :=
  match x with
  | None => Returned true
  | Some v =>
      if negb (Json.truthy v) then Returned true
      else match v with
           | Json.Str s => Returned (is_blank s)
           | _ => Thrown (TypeError (name +:+ ".trim is not a function"))
           end
  end.

(** The string that passed [!x || !x.trim()]. *)
Definition text_of (x : option Json.value) : string :=
  match x with
  | Some (Json.Str s) => s
  | _ => EmptyString
  end.

(** [LANGUAGES[language] || LANGUAGES['English']] for a language that is
    any JSON value: it is first converted to a property key. *)
Definition language_code_of (language : Json.value) : outcome code :=
  match Json.to_string language with
  | Returned key => Returned (language_code key)
  | Thrown e => Thrown e
  end.

Section WithEnv.
Context (E : env).
Local Open Scope js_scope.

(** [translateText(text, targetLanguageCode, sourceLanguageCode)], for
    language codes as the routes compute them. *)
Definition translateText (text : string) (targetLanguageCode sourceLanguageCode : code)
  : M log string :=
  try_catch
    (if decide (targetLanguageCode = Code "en-IN") then ret text
     else
       let body := {| input := text;
                      source_language_code := sourceLanguageCode;
                      target_language_code := targetLanguageCode;
                      speaker_gender := "Male" |} in
       exec emit (AxiosTranslate (Translation.SARVAM_BASE_URL +:+ "/translate") body
                    ("Bearer " +:+ SARVAM_API_KEY E));
       await response <- lift (sarvam_translate E body);
       match response with
       | None =>
           throw (TypeError
             "Cannot read properties of undefined (reading 'translated_text')")
       | Some data => ret (or_default (Translation.translated_text data) text)
       end)
    (fun error => ret text).

(** [getSarvamChatResponse(messages)], as embedded in [Translation]. *)
Definition getSarvamChatResponse (messages : list Msg.t) : M log string :=
  via (Translation.getSarvamChatResponse (services E) messages).

(** The handler of [POST /api/upload]. *)
Definition upload_handler (req : UploadReq.t) : M log response :=
  let language := default "English" (UploadReq.language req) in
  let userQuestion := default EmptyString (UploadReq.userQuestion req) in
  let targetLanguageCode := language_code language in
  match UploadReq.file req with
  | None =>
      await errorMsg <- translateText "No PDF file uploaded." targetLanguageCode (Code "en-IN");
      ret {| status := 400; body := JsonError errorMsg |}
  | Some file =>
      try_catch
        (exec emit (PdfParse (UploadedFile.buffer file));
         await data <- lift (pdf E (UploadedFile.buffer file));
         let documentText := Session.text data in
         await englishUserQuestion <-
           (if negb (is_blank userQuestion)
            then translateText userQuestion (Code "en-IN") targetLanguageCode
            else ret EmptyString);
         let userPrompt :=
           "Here is the legal document I need help understanding. Please provide a summary based on your instructions, dont include bold letters or multiple special characters but few are fine. Document Text: "
           +:+ Session.dq3 +:+ documentText +:+ Session.dq3
           +:+ (if decide (englishUserQuestion = EmptyString) then EmptyString
                else lf +:+ lf +:+ "Additional question from user: "
                     +:+ englishUserQuestion) in
         let messages := [ Msg.mk "system" systemPrompt; Msg.mk "user" userPrompt ] in
         await aiSummary <- getSarvamChatResponse messages;
         await translatedSummary <- translateText aiSummary targetLanguageCode (Code "en-IN");
         ret {| status := 200;
                body := JsonUpload translatedSummary (Session.numpages data)
                          (UploadedFile.originalname file) language userQuestion
                          englishUserQuestion |})
        (fun error =>
           await errorMsg <-
             translateText "Failed to process the PDF file." targetLanguageCode
               (Code "en-IN");
           ret {| status := 500; body := JsonError errorMsg |})
  end.

(** The loop of the chat route over [chatHistory]. *)
Fixpoint translate_history (targetLanguageCode : code) (chatHistory : list HistoryItem.t)
  : M log (list Msg.t) :=
  match chatHistory with
  | [] => ret []
  | chat :: rest =>
      let sourceLangForHistory :=
        match HistoryItem.language chat with
        | Some l => if decide (l = EmptyString) then targetLanguageCode
                    else language_code l
        | None => targetLanguageCode
        end in
      await translatedContent <-
        translateText (HistoryItem.content chat) (Code "en-IN") sourceLangForHistory;
      await englishChatHistory <- translate_history targetLanguageCode rest;
      ret (Msg.mk (HistoryItem.role chat) translatedContent :: englishChatHistory)
  end.

(** The handler of [POST /api/chat]. *)
Definition chat_handler (req : ChatReq.t) : M log response :=
  let chatHistory := default [] (ChatReq.chatHistory req) in
  let language := default "English" (ChatReq.language req) in
  let targetLanguageCode := language_code language in
  if missing_or_blank (ChatReq.message req)
  then
    await errorMsg <- translateText "No message provided." targetLanguageCode (Code "en-IN");
    ret {| status := 400; body := JsonError errorMsg |}
  else
    let message := default EmptyString (ChatReq.message req) in
    try_catch
      (await englishMessage <- translateText message (Code "en-IN") targetLanguageCode;
       await englishChatHistory <- translate_history targetLanguageCode chatHistory;
       let messages :=
         Msg.mk "system" systemPrompt
         :: englishChatHistory ++ [ Msg.mk "user" englishMessage ] in
       await aiResponse <- getSarvamChatResponse messages;
       await translatedResponse <- translateText aiResponse targetLanguageCode (Code "en-IN");
       ret {| status := 200;
              body := JsonChat translatedResponse language message englishMessage
                        aiResponse |})
      (fun error =>
         await errorMsg <-
           translateText "Failed to process your message." targetLanguageCode
             (Code "en-IN");
         ret {| status := 500; body := JsonError errorMsg |}).

(** The handler of [POST /api/analyze-text]. *)
Definition analyze_text_handler (req : AnalyzeReq.t) : M log response :=
  let language := default "English" (AnalyzeReq.language req) in
  let targetLanguageCode := language_code language in
  if missing_or_blank (AnalyzeReq.userText req)
  then
    await errorMsg <-
      translateText "No text provided for analysis." targetLanguageCode (Code "en-IN");
    ret {| status := 400; body := JsonError errorMsg |}
  else
    let userText := default EmptyString (AnalyzeReq.userText req) in
    try_catch
      (await englishText <- translateText userText (Code "en-IN") targetLanguageCode;
       let messages :=
         [ Msg.mk "system" systemPrompt;
           Msg.mk "user"
             ("Here is the text/question I need help understanding: " +:+ dq
              +:+ englishText +:+ dq
              +:+ ". Please provide analysis and guidance based on your instructions.") ] in
       await aiResponse <- getSarvamChatResponse messages;
       await translatedResponse <- translateText aiResponse targetLanguageCode (Code "en-IN");
       ret {| status := 200;
              body := JsonAnalysis translatedResponse language userText englishText
                        aiResponse |})
      (fun error =>
         await errorMsg <-
           translateText "Failed to analyze the provided text." targetLanguageCode
             (Code "en-IN");
         ret {| status := 500; body := JsonError errorMsg |}).

(** The handler of [POST /api/translate]. *)
Definition translate_handler (req : TranslateReq.t) : M log response :=
  let targetLanguage := default "English" (TranslateReq.targetLanguage req) in
  let sourceLanguage := default "English" (TranslateReq.sourceLanguage req) in
  let targetLangCode := language_code targetLanguage in
  let sourceLangCode := language_code sourceLanguage in
  if missing_or_blank (TranslateReq.text req)
  then ret {| status := 400; body := JsonError "No text provided for translation." |}
  else
    let text := default EmptyString (TranslateReq.text req) in
    try_catch
      (await translatedText <- translateText text targetLangCode sourceLangCode;
       ret {| status := 200;
              body := JsonTranslation text translatedText sourceLanguage targetLanguage |})
      (fun error =>
         ret {| status := 500; body := JsonError "Failed to translate the text." |}).

(** The handler of [POST /api/chat], on a body whose [message] and
    [language] are any JSON values, the history being well formed.  The
    conversion of [language] to a property key and the call of
    [message.trim] come before the [try]. *)
Definition chat_handler_json (message : option Json.value)
  (chatHistory : option (list HistoryItem.t)) (language : option Json.value)
  : M log response_echo :=
  let chatHistory := default [] chatHistory in
  let language := default (Json.Str "English") language in
  await targetLanguageCode <- lift (language_code_of language);
  await refused <- lift (missing_or_blank_value "message" message);
  if (refused : bool)
  then
    await errorMsg <- translateText "No message provided." targetLanguageCode (Code "en-IN");
    ret {| echo_status := 400; echo_body := EchoError errorMsg |}
  else
    let message := text_of message in
    try_catch
      (await englishMessage <- translateText message (Code "en-IN") targetLanguageCode;
       await englishChatHistory <- translate_history targetLanguageCode chatHistory;
       let messages :=
         Msg.mk "system" systemPrompt
         :: englishChatHistory ++ [ Msg.mk "user" englishMessage ] in
       await aiResponse <- getSarvamChatResponse messages;
       await translatedResponse <- translateText aiResponse targetLanguageCode (Code "en-IN");
       ret {| echo_status := 200;
              echo_body := EchoChat translatedResponse language message englishMessage
                             aiResponse |})
      (fun error =>
         await errorMsg <-
           translateText "Failed to process your message." targetLanguageCode
             (Code "en-IN");
         ret {| echo_status := 500; echo_body := EchoError errorMsg |}).

(** The handler of [POST /api/analyze-text], on a body whose two
    properties are any JSON values.  The conversion of [language] to a
    property key and the call of [userText.trim] come before the [try]. *)
Definition analyze_text_handler_json (userText language : option Json.value)
  : M log response_echo :=
  let language := default (Json.Str "English") language in
  await targetLanguageCode <- lift (language_code_of language);
  await refused <- lift (missing_or_blank_value "userText" userText);
  if (refused : bool)
  then
    await errorMsg <-
      translateText "No text provided for analysis." targetLanguageCode (Code "en-IN");
    ret {| echo_status := 400; echo_body := EchoError errorMsg |}
  else
    let userText := text_of userText in
    try_catch
      (await englishText <- translateText userText (Code "en-IN") targetLanguageCode;
       let messages :=
         [ Msg.mk "system" systemPrompt;
           Msg.mk "user"
             ("Here is the text/question I need help understanding: " +:+ dq
              +:+ englishText +:+ dq
              +:+ ". Please provide analysis and guidance based on your instructions.") ] in
       await aiResponse <- getSarvamChatResponse messages;
       await translatedResponse <- translateText aiResponse targetLanguageCode (Code "en-IN");
       ret {| echo_status := 200;
              echo_body := EchoAnalysis translatedResponse language userText englishText
                             aiResponse |})
      (fun error =>
         await errorMsg <-
           translateText "Failed to analyze the provided text." targetLanguageCode
             (Code "en-IN");
         ret {| echo_status := 500; echo_body := EchoError errorMsg |}).

(** The handler of [POST /api/translate], on a body whose three properties
    are any JSON values.  The conversions of the two languages to property
    keys and the call of [text.trim] come before the [try]. *)
Definition translate_handler_json (text targetLanguage sourceLanguage : option Json.value)
  : M log response_echo :=
  let targetLanguage := default (Json.Str "English") targetLanguage in
  let sourceLanguage := default (Json.Str "English") sourceLanguage in
  await targetLangCode <- lift (language_code_of targetLanguage);
  await sourceLangCode <- lift (language_code_of sourceLanguage);
  await refused <- lift (missing_or_blank_value "text" text);
  if (refused : bool)
  then ret {| echo_status := 400;
              echo_body := EchoError "No text provided for translation." |}
  else
    let text := text_of text in
    try_catch
      (await translatedText <- translateText text targetLangCode sourceLangCode;
       ret {| echo_status := 200;
              echo_body := EchoTranslation text translatedText sourceLanguage
                             targetLanguage |})
      (fun error =>
         ret {| echo_status := 500;
                echo_body := EchoError "Failed to translate the text." |}).

End WithEnv.

End Multilingual.

(** * The chat area of the translation revision *)

Module LanguageClient.

(** A message of the current chat, as far as the handlers read it. *)
Record Message := { content : string; isUser : bool }.

(** A chat of the chat context. *)
Record Chat := { messages : list Message }.

(** [BackendMessage]. *)
Record BackendMessage := { role : string; backend_content : string }.

(** What [createNewChat()] returns: the id of the new chat, or the chat
    itself ([None] for [undefined]). *)
Inductive new_chat :=
| ChatId (id : string)
| ChatObject (chat : option Chat).

(** The properties the client reads in the JSON of an answer. *)
Record json_reply := {
  error : option string;
  message : option string;
  languages : option (list string)
}.

Record http_response := { ok : bool; json : outcome json_reply }.

(** The requests of the chat area.  [userQuestion] is [None] when the
    form has no such field. *)
Inductive request :=
| GetLanguages (url : string)
| PostUpload (url : string) (pdfFile : File.t) (language : string)
             (userQuestion : option string)
| PostChat (url : string) (message : string) (chatHistory : list BackendMessage)
           (language : string).

Record env := {
  fetch : request -> outcome http_response;
  currentChat : option Chat;
  createNewChat : new_chat
}.

(** The [useState] cells. *)
Record state := State {
  inputValue : string;
  selectedFiles : list FileAttachment.t;
  isProcessing : bool;
  showChat : bool;
  language : string;
  supportedLanguages : list string
}.

Inductive effect :=
| Fetch (r : request)
| CreateNewChat
| AddMessage (content : option string) (isUser : bool).

Record world := World { ui : state; effects : list effect }.

Definition emit (e : effect) : M world unit :=
  fun w => (Returned tt, World (ui w) (effects w ++ [e])).

Definition read {A} (f : state -> A) : M world A :=
  fun w => (Returned (f (ui w)), w).

Definition update (f : state -> state) : M world unit :=
  fun w => (Returned tt, World (f (ui w)) (effects w)).

Definition setInputValue (v : string) : M world unit :=
  update (fun c => State v (selectedFiles c) (isProcessing c) (showChat c)
                     (language c) (supportedLanguages c)).

Definition setSelectedFiles (v : list FileAttachment.t) : M world unit :=
  update (fun c => State (inputValue c) v (isProcessing c) (showChat c)
                     (language c) (supportedLanguages c)).

Definition setIsProcessing (v : bool) : M world unit :=
  update (fun c => State (inputValue c) (selectedFiles c) v (showChat c)
                     (language c) (supportedLanguages c)).

Definition setShowChat (v : bool) : M world unit :=
  update (fun c => State (inputValue c) (selectedFiles c) (isProcessing c) v
                     (language c) (supportedLanguages c)).


(** [getChatById(chatResult)], as the file defines it. *)
Definition getChatById (chatResult : string) : M world (option Chat) :=
  throw (JsError (Some "Function not implemented.")).

Section WithEnv.
Context (E : env).
Local Open Scope js_scope.

Definition do_fetch (r : request) : M world http_response :=
  exec emit (Fetch r);
  lift (fetch E r).


(** [handleFileUpload(attachment, userQuestion)]. *)
Definition handleFileUpload (attachment : FileAttachment.t) (userQuestion : string)
  : M world string :=
  await language <- read language;
  try_catch
    (await response <-
       do_fetch (PostUpload "https://lawwise.onrender.com/api/upload"
                   (FileAttachment.file attachment) language
                   (if decide (userQuestion = EmptyString) then None
                    else Some userQuestion));
     if negb (ok response)
     then
       await err <- lift (json response);
       throw (JsError (Some (or_default (error err) "Upload failed")))
     else
       await result <- lift (json response);
       ret (or_default (message result) "Document analysis complete."))
    (fun error => ret ("Error processing file: " +:+ Client.error_text error)).

(** [handleChatMessage(question, history)]. *)
Definition handleChatMessage (question : string) (history : list BackendMessage)
  : M world (option string) :=
  await language <- read language;
  try_catch
    (await response <-
       do_fetch (PostChat "https://lawwise.onrender.com/api/chat" question history
                   language);
     if negb (ok response)
     then
       await err <- lift (json response);
       throw (JsError (Some (or_default (error err) "Failed to get a response")))
     else
       await result <- lift (json response);
       ret (message result))
    (fun error => ret (Some ("Error getting answer: " +:+ Client.error_text error))).

(** The history in the format of the server: [isUser] becomes the role. *)
Definition backend_history (chat : option Chat) : list BackendMessage :=
  map (fun msg => {| role := if isUser msg then "user" else "assistant";
                     backend_content := content msg |})
      (match chat with
       | Some c => messages c
       | None => []
       end).

(** [handleSendMessage()]. *)
Definition handleSendMessage : M world unit :=
  await currentInput <- read inputValue;
  await currentFiles <- read selectedFiles;
  await busy <- read isProcessing;
  if (is_blank currentInput && bool_decide (length currentFiles = 0%nat)) || busy
  then ret tt
  else
    exec setIsProcessing true;
    await currentChatInstance <-
      match currentChat E with
      | Some chat => ret (Some chat)
      | None =>
          exec emit CreateNewChat;
          match createNewChat E with
          | ChatId chatResult => getChatById chatResult
          | ChatObject chatResult => ret chatResult
          end
      end;
    exec setShowChat true;
    let userMessageContent :=
      or_default (Some currentInput)
        ("Uploaded: " +:+ join ", " (map FileAttachment.name currentFiles)) in
    exec emit (AddMessage (Some userMessageContent) true);
    exec setInputValue EmptyString;
    exec setSelectedFiles [];
    let backendChatHistory := backend_history currentChatInstance in
    await aiResponseContent <-
      match currentFiles with
      | attachment :: _ =>
          await r <- handleFileUpload attachment currentInput;
          ret (Some r)
      | [] => handleChatMessage currentInput backendChatHistory
      end;
    exec emit (AddMessage aiResponseContent false);
    setIsProcessing false.

End WithEnv.

End LanguageClient.

(** ** The client and the server of the translation revision, connected *)

(** The handler of [GET /api/languages]: the names of [LANGUAGES], in the
    order of the table. *)
Definition languages_handler : list string := (Multilingual.LANGUAGES).*1.

(** [res.status(s).json(b)] as [fetch] receives it. *)
Definition wire_multilingual (r : Multilingual.response) : LanguageClient.http_response :=
  {| LanguageClient.ok :=
       (200 <=? Multilingual.status r) && (Multilingual.status r <? 300);
     LanguageClient.json :=
       Returned
         match Multilingual.body r with
         | Multilingual.JsonError e =>
             {| LanguageClient.error := Some e; LanguageClient.message := None;
                LanguageClient.languages := None |}
         | Multilingual.JsonUpload m _ _ _ _ _
         | Multilingual.JsonChat m _ _ _ _
         | Multilingual.JsonAnalysis m _ _ _ _ =>
             {| LanguageClient.error := None; LanguageClient.message := Some m;
                LanguageClient.languages := None |}
         | Multilingual.JsonTranslation _ _ _ _ =>
             {| LanguageClient.error := None; LanguageClient.message := None;
                LanguageClient.languages := None |}
         end |}.

Definition wire_multilingual_outcome (o : outcome Multilingual.response)
  : outcome LanguageClient.http_response :=
  match o with
  | Returned r => Returned (wire_multilingual r)
  | Thrown e => Thrown e
  end.

(** An entry of the history, as [express.json()] hands it to the chat
    route: the client sends no [language] with it. *)
Definition history_item (m : LanguageClient.BackendMessage) : Multilingual.HistoryItem.t :=
  Multilingual.HistoryItem.mk (LanguageClient.role m) (LanguageClient.backend_content m)
    None.

(** The server of the translation revision, as the client's [fetch] sees
    it. *)
Definition served_multilingual (E : Multilingual.env)
  : LanguageClient.request -> outcome LanguageClient.http_response :=
  fun r =>
    match r with
    | LanguageClient.GetLanguages url =>
        if decide (url = "https://lawwise.onrender.com/api/languages")
        then Returned
               {| LanguageClient.ok := true;
                  LanguageClient.json :=
                    Returned {| LanguageClient.error := None;
                                LanguageClient.message := None;
                                LanguageClient.languages := Some languages_handler |} |}
        else Thrown (TypeError "Failed to fetch")
    | LanguageClient.PostUpload url pdfFile language userQuestion =>
        if decide (url = "https://lawwise.onrender.com/api/upload")
        then wire_multilingual_outcome
               (Multilingual.upload_handler E
                  (Multilingual.UploadReq.mk
                     (Some (Multilingual.UploadedFile.mk (File.bytes pdfFile)
                              (File.name pdfFile)))
                     (Some language) userQuestion) []).1
        else Thrown (TypeError "Failed to fetch")
    | LanguageClient.PostChat url message chatHistory language =>
        if decide (url = "https://lawwise.onrender.com/api/chat")
        then wire_multilingual_outcome
               (Multilingual.chat_handler E
                  (Multilingual.ChatReq.mk (Some message)
                     (Some (map history_item chatHistory)) (Some language)) []).1
        else Thrown (TypeError "Failed to fetch")
    end.

(** * Vocabulary of the statements *)

(** ** Translation and answering *)

(** The translate request [translateText] sends. *)
Definition translate_request (text targetLanguageCode sourceLanguageCode : string)
  : Translation.translate_body :=
  {| Translation.input := text;
     Translation.source_language_code := sourceLanguageCode;
     Translation.target_language_code := targetLanguageCode;
     Translation.speaker_gender := "Male" |}.

(** The translation service failed, or answered without a translated
    text. *)
Definition translation_failed (o : outcome (option Translation.translate_data)) : Prop :=
  match o with
  | Thrown _ => True
  | Returned None => True
  | Returned (Some d) =>
      Translation.translated_text d = None
      ∨ Translation.translated_text d = Some EmptyString
  end.

(** A chat provider failed: its request was rejected, or what it answered
    has no [choices] to index. *)
Definition primary_failed (o : outcome (option completion)) : Prop :=
  match o with
  | Thrown _ => True
  | Returned None => True
  | Returned (Some c) => choices c = None
  end.

Definition secondary_failed (o : outcome completion) : Prop :=
  match o with
  | Thrown _ => True
  | Returned c => choices c = None
  end.

(** The request [getSarvamChatResponse] sends to the primary provider. *)
Definition primary_request (E : Translation.env) (messages : list Msg.t)
  : Translation.call :=
  Translation.AxiosChat
    (Translation.SARVAM_BASE_URL +:+ "/chat/completions") "sarvam-m" messages
    ("Bearer " +:+ Translation.SARVAM_API_KEY E).


(** ** Sessions *)

(** The state right after the upload handler has stored [documentText]
    under [sessionId] and set its timer. *)
Definition session_created (sessionId documentText : string) (s : Session.state)
  : Session.state :=
  {| Session.documentContextStore :=
       Session.js_set (Session.documentContextStore s) sessionId documentText;
     Session.timers := Session.timers s ++ [(Session.now s + Session.TTL, sessionId)];
     Session.now := Session.now s |}.

(** What [documentContextStore[sessionId]] evaluates to in a state: the
    read of the chat route, before the route tests the value for
    truthiness.  What the route makes of it is stated on [chat_handler]. *)
Definition lookup (s : Session.state) (sessionId : string) : Session.jsval :=
  Session.js_get (Session.documentContextStore s) sessionId.

(** The answers of the two routes that the statements name. *)
Definition session_expired_or_invalid : Session.response :=
  {| Session.status := 404;
     Session.body := Session.JsonError
       "Your document session has expired or is invalid. Please upload the document again." |}.

Definition extraction_failure : Session.response :=
  {| Session.status := 400;
     Session.body := Session.JsonError
       "The uploaded PDF appears to be corrupted. Please re-save it and try again." |}.

Definition processing_failure : Session.response :=
  {| Session.status := 500;
     Session.body := Session.JsonError "Failed to process the PDF file." |}.

(** The one request a follow-up sends to the answering service. *)
Definition answer_request (documentText : Session.jsval) (question : string)
  : Session.call :=
  Session.GroqCreate (Session.followup_messages documentText question)
    "llama-3.3-70b-versatile".

(** A follow-up question for a session. *)
Definition follow_up (sessionId question : string) : Session.chat_body :=
  {| Session.sessionId := Some sessionId; Session.question := Some question |}.

(** No upload among the events draws [sessionId] from [uuidv4]. *)
Definition never_redrawn (sessionId : string) (evs : list Session.event) : Prop :=
  Forall (λ ev, Session.drawn ev ≠ Some sessionId) evs.

(** Every pending timer is due in the future. *)
Definition timers_pending (s : Session.state) : Prop :=
  ∀ tm, tm ∈ Session.timers s → Session.now s < tm.1.

(** What the initial analysis of a text comes to: it does not depend on
    the state. *)
Definition analysis_outcome (E : Session.env) (documentText : string) : outcome string :=
  (Session.getInitialAIAnalysis E documentText (Session.World Session.init [])).1.

(** While [sessionId] is stored, one of its timers is due by [deadline]. *)
Definition expiry_scheduled (sessionId : string) (deadline : N) (s : Session.state)
  : Prop :=
  is_Some (Session.documentContextStore s !! sessionId) →
  ∃ d, (d, sessionId) ∈ Session.timers s ∧ d ≤ deadline.

(** [sessionId] is stored with [documentText], and none of its timers is
    due before [deadline]. *)
Definition session_live (sessionId documentText : string) (deadline : N)
    (s : Session.state) : Prop :=
  Session.documentContextStore s !! sessionId = Some documentText
  ∧ ∀ d, (d, sessionId) ∈ Session.timers s → deadline ≤ d.

(** ** Sample worlds *)

(** A version 4 uuid. *)
Definition sample_uuid : string := "123e4567-e89b-42d3-a456-426614174000".

Definition summary_completion : completion :=
  {| choices := Some [ {| message := Some {| content := Some "Summary" |} |} ] |}.

(** An upload with a file. *)
Definition pdf_upload : Session.upload_request := {| Session.file := Some "%PDF-1.4" |}.

(** pdf-parse extracts [documentText] and Groq answers. *)
Definition parsed_world (documentText : string) : Session.env :=
  {| Session.pdf := λ _, Returned {| Session.text := documentText; Session.numpages := 1 |};
     Session.uuidv4 := sample_uuid;
     Session.groq_create := λ _, Returned summary_completion |}.

(** pdf-parse throws an error with the given message. *)
Definition corrupted_world (msg : string) : Session.env :=
  {| Session.pdf := λ _, Thrown (JsError (Some msg));
     Session.uuidv4 := sample_uuid;
     Session.groq_create := λ _, Returned summary_completion |}.

(** pdf-parse extracts [documentText] and Groq is down. *)
Definition analysis_down_world (documentText : string) : Session.env :=
  {| Session.pdf := λ _, Returned {| Session.text := documentText; Session.numpages := 1 |};
     Session.uuidv4 := sample_uuid;
     Session.groq_create := λ _, Thrown (JsError (Some "Connection error.")) |}.

Definition lease : string := "Lease Agreement between A and B...".

(** A world in which the translation service is down. *)
Definition translation_down : Translation.env :=
  {| Translation.SARVAM_API_KEY := "key";
     Translation.sarvam_translate := λ _, Thrown (JsError (Some "Network Error"));
     Translation.sarvam_chat := λ _, Thrown (JsError (Some "Network Error"));
     Translation.groq_create := λ _, Thrown (JsError (Some "Connection error.")) |}.

(** ** The store as a whole *)

(** Every stored key has a timer that is due within thirty minutes. *)
Definition store_covered (s : Session.state) : Prop :=
  ∀ k, is_Some (Session.documentContextStore s !! k) →
       ∃ d, (d, k) ∈ Session.timers s ∧ d ≤ Session.now s + Session.TTL.

(** No event of the run is an upload. *)
Definition no_upload (evs : list Session.event) : Prop :=
  Forall (λ ev, Session.drawn ev = None) evs.

(** The answers of the session revision that carry an error. *)
Definition no_file_uploaded : Session.response :=
  {| Session.status := 400; Session.body := Session.JsonError "No PDF file uploaded." |}.

Definition fields_required : Session.response :=
  {| Session.status := 400;
     Session.body := Session.JsonError "Session ID and question are required." |}.

Definition answer_failure : Session.response :=
  {| Session.status := 500;
     Session.body := Session.JsonError "Failed to get a response from the AI." |}.

(** ** The chat area *)

(** The address of the two routes, as the chat area writes them. *)
Definition upload_url : string := "http://localhost:5000/api/upload".
Definition chat_url : string := "http://localhost:5000/api/chat".

(** [handleSendMessage] returns at once: nothing to send, or a send is
    under way. *)
Definition send_blocked (c : Client.state) : bool :=
  (is_blank (Client.inputValue c)
   && bool_decide (length (Client.selectedFiles c) = 0%nat))
  || Client.isProcessing c.

(** The request a send makes, if any: the first staged file goes to the
    upload route; without a file the input goes to the chat route, when a
    session id is held. *)
Definition send_request (c : Client.state) : option Client.request :=
  match Client.selectedFiles c with
  | attachment :: _ => Some (Client.PostUpload upload_url (FileAttachment.file attachment))
  | [] =>
      match Client.currentDocSessionId c with
      | Some id =>
          if decide (id = EmptyString) then None
          else Some (Client.PostChat chat_url id (Client.inputValue c))
      | None => None
      end
  end.

(** The message shown for the user when a send starts. *)
Definition user_message (c : Client.state) : string :=
  or_default (Some (Client.inputValue c))
    ("Uploaded: " +:+ join ", " (map FileAttachment.name (Client.selectedFiles c))).

(** The state with another session id. *)
Definition with_session (c : Client.state) (id : option string) : Client.state :=
  Client.State (Client.inputValue c) (Client.selectedFiles c) (Client.isProcessing c)
    (Client.showChat c) id.

(** The session id the chat area holds after an upload that [fetch]
    settled with [o]: a new one only when the answer is ok, is JSON and
    carries a non-empty [sessionId]. *)
Definition session_after_upload (o : outcome Client.http_response) (old : option string)
  : option string :=
  match o with
  | Returned response =>
      if Client.ok response then
        match Client.json response with
        | Returned result =>
            if Session.falsy (Client.sessionId result) then old
            else Client.sessionId result
        | Thrown _ => old
        end
      else old
  | Thrown _ => old
  end.

(** What the follow-up for a stored text comes to: it does not depend on
    the state. *)
Definition followup_outcome (E : Session.env) (documentText question : string)
  : outcome string :=
  (Session.getFollowUpAIResponse E (Session.JString documentText) question
     (Session.World Session.init [])).1.

(** ** The routes of the translation revision *)

(** A history entry as the answering service gets it. *)
Definition history_message (chat : Multilingual.HistoryItem.t) : Msg.t :=
  Msg.mk (Multilingual.HistoryItem.role chat) (Multilingual.HistoryItem.content chat).

(** The messages the chat route sends to the answering service. *)
Definition chat_messages (chatHistory : list Multilingual.HistoryItem.t) (message : string)
  : list Msg.t :=
  Msg.mk "system" Multilingual.systemPrompt
  :: map history_message chatHistory ++ [ Msg.mk "user" message ].

(** The answer of the two providers to some messages, and the requests
    made to get it. *)
Definition provider_answer (E : Multilingual.env) (messages : list Msg.t)
  : outcome string * Translation.log :=
  Translation.getSarvamChatResponse (Multilingual.services E) messages [].

(** The translation service fails on every request. *)
Definition translation_unavailable (E : Multilingual.env) : Prop :=
  ∀ body, translation_failed (Multilingual.sarvam_translate E body).

(** The request is a translation request. *)
Definition is_translation (c : Multilingual.call) : bool :=
  match c with
  | Multilingual.AxiosTranslate _ _ _ => true
  | _ => false
  end.

(** The messages the upload route sends to the answering service: the
    question joins the prompt when it is not blank. *)
Definition upload_messages (documentText userQuestion : string) : list Msg.t :=
  [ Msg.mk "system" Multilingual.systemPrompt;
    Msg.mk "user"
      ("Here is the legal document I need help understanding. Please provide a summary based on your instructions, dont include bold letters or multiple special characters but few are fine. Document Text: "
       +:+ Session.dq3 +:+ documentText +:+ Session.dq3
       +:+ (if is_blank userQuestion then EmptyString
            else lf +:+ lf +:+ "Additional question from user: " +:+ userQuestion)) ].

(** The messages the text analysis route sends. *)
Definition analysis_messages (userText : string) : list Msg.t :=
  [ Msg.mk "system" Multilingual.systemPrompt;
    Msg.mk "user"
      ("Here is the text/question I need help understanding: " +:+ dq
       +:+ userText +:+ dq
       +:+ ". Please provide analysis and guidance based on your instructions.") ].

(** The sentence returned when both providers fail. *)
Definition apology : string :=
  "Sorry, I encountered an error while analyzing the document with the AI service.".

(** ** The chat area of the translation revision *)


(** [handleSendMessage] returns at once. *)
Definition sending_blocked (c : LanguageClient.state) : bool :=
  (is_blank (LanguageClient.inputValue c)
   && bool_decide (length (LanguageClient.selectedFiles c) = 0%nat))
  || LanguageClient.isProcessing c.

(** The state with the processing flag up. *)
Definition processing (c : LanguageClient.state) : LanguageClient.state :=
  LanguageClient.State (LanguageClient.inputValue c) (LanguageClient.selectedFiles c)
    true (LanguageClient.showChat c) (LanguageClient.language c)
    (LanguageClient.supportedLanguages c).



(** ** More sample worlds *)

(** A state with one session. *)
Definition one_session : Session.state :=
  Session.step Session.init (Session.Upload (parsed_world lease) pdf_upload).

(** A file of the browser, and the attachment [onDrop] makes of it. *)
Definition lease_file : File.t :=
  File.mk "lease.pdf" 1700000000000 "application/pdf" 8 "%PDF-1.4".

Definition lease_attachment : FileAttachment.t :=
  FileAttachment.mk "lease.pdf-1700000000000" "lease.pdf" "application/pdf" 8
    lease_file "blob:lease".

(** The chat area in front of a server of the session revision. *)
Definition browser (E : Session.env) (s : Session.state) : Client.env :=
  {| Client.fetch := served E s;
     Client.currentChat := true;
     Client.createObjectURL := fun _ => "blob:lease" |}.

(** The chat area with a question typed, and a session id or none. *)
Definition asking (id : option string) : Client.state :=
  Client.State "What is the rent?" [] false true id.

(** The services of the translation revision, all up: every text is
    translated to the same word, the primary provider answers. *)
Definition services_up : Multilingual.env :=
  {| Multilingual.SARVAM_API_KEY := "key";
     Multilingual.sarvam_translate := fun _ =>
       Returned (Some {| Translation.translated_text := Some "anuvaad" |});
     Multilingual.sarvam_chat := fun _ => Returned (Some summary_completion);
     Multilingual.groq_create := fun _ => Returned summary_completion;
     Multilingual.pdf := fun _ =>
       Returned {| Session.text := lease; Session.numpages := 1 |} |}.

(** The same, all down. *)
Definition services_down : Multilingual.env :=
  {| Multilingual.SARVAM_API_KEY := "key";
     Multilingual.sarvam_translate := fun _ => Thrown (JsError (Some "Network Error"));
     Multilingual.sarvam_chat := fun _ => Thrown (JsError (Some "Network Error"));
     Multilingual.groq_create := fun _ => Thrown (JsError (Some "Connection error."));
     Multilingual.pdf := fun _ => Thrown (JsError (Some "Invalid PDF structure")) |}.

(** A question in Hindi, after one exchange. *)
Definition hindi_question : Multilingual.ChatReq.t :=
  Multilingual.ChatReq.mk (Some "kiraya kitna hai?")
    (Some [ Multilingual.HistoryItem.mk "user" "namaste" None ]) (Some "Hindi").

(** The same question with a language the table does not have. *)
Definition klingon_question : Multilingual.ChatReq.t :=
  Multilingual.ChatReq.mk (Some "kiraya kitna hai?") None (Some "Klingon").

(** An upload in Hindi with a question. *)
Definition hindi_upload : Multilingual.UploadReq.t :=
  Multilingual.UploadReq.mk (Some (Multilingual.UploadedFile.mk "%PDF-1.4" "lease.pdf"))
    (Some "Hindi") (Some "kiraya kitna hai?").

(** The chat area of the translation revision, in front of a server. *)
Definition multilingual_browser (E : Multilingual.env) (chat : option LanguageClient.Chat)
    (created : LanguageClient.new_chat) : LanguageClient.env :=
  {| LanguageClient.fetch := served_multilingual E;
     LanguageClient.currentChat := chat;
     LanguageClient.createNewChat := created |}.

Definition asking_in (language : string) : LanguageClient.state :=
  LanguageClient.State "kiraya kitna hai?" [] false true language ["English"].

(** * Properties of the translation revision *)

Section TranslationProperties.
Import Translation.
Context (E : env).

(** C7. Whatever the translation service does, [translateText] returns a
    string and never throws; and when the service fails or answers without
    a translated text, the string returned is the input text itself. *)
Theorem translateText_absorbs_failure text target source w :
  (∃ v, (translateText E text target source w).1 = Returned v)
  ∧ (translation_failed (sarvam_translate E (translate_request text target source)) →
     (translateText E text target source w).1 = Returned text).
Proof.
  unfold translateText, try_catch, bind, emit, lift, ret, throw, translate_request.
  destruct (decide (target = "en-IN")) as [->|Hne]; simpl; [eauto|].
  destruct (sarvam_translate E _) as [[d|]|e]; simpl; split; eauto.
  intros [Hd|Hd]; rewrite Hd; reflexivity.
Qed.

(** When the primary provider fails, the answer and the log are those of
    the fallback provider, started after the primary request. *)
Lemma getSarvamChatResponse_falls_back messages w :
  primary_failed (sarvam_chat E messages) →
  getSarvamChatResponse E messages w
  = getGroqAnalysis E messages (w ++ [primary_request E messages]).
Proof.
  unfold getSarvamChatResponse, try_catch at 1, bind, emit, lift, throw, primary_request.
  destruct (sarvam_chat E messages) as [[c|]|e]; simpl; try done.
  unfold first_choice_content. intros ->. reflexivity.
Qed.

(** The fallback provider sends exactly one request. *)
Lemma getGroqAnalysis_log messages w :
  (getGroqAnalysis E messages w).2 = w ++ [GroqCreate messages "llama3-8b-8192"].
Proof.
  unfold getGroqAnalysis, try_catch, bind, emit, lift, ret.
  destruct (groq_create E messages) as [c|e]; simpl; [|done].
  destruct (first_choice_content c); reflexivity.
Qed.

(** The answer of the fallback provider does not depend on the log. *)
Lemma getGroqAnalysis_answer messages w w' :
  (getGroqAnalysis E messages w).1 = (getGroqAnalysis E messages w').1.
Proof.
  unfold getGroqAnalysis, try_catch, bind, emit, lift, ret.
  destruct (groq_create E messages) as [c|e]; simpl; [|done].
  destruct (first_choice_content c); reflexivity.
Qed.

(** C6. When the primary provider fails, the fallback provider is sent the
    same messages and its answer is the one returned; when the fallback
    fails too, the caller gets the fixed, generic error sentence. *)
Theorem fallback_chain messages w :
  primary_failed (sarvam_chat E messages) →
  (getSarvamChatResponse E messages w).2
  = w ++ [primary_request E messages; GroqCreate messages "llama3-8b-8192"]
  ∧ (getSarvamChatResponse E messages w).1 = (getGroqAnalysis E messages []).1
  ∧ (∀ c answer,
       groq_create E messages = Returned c →
       first_choice_content c = Returned (Some answer) →
       answer ≠ EmptyString →
       (getSarvamChatResponse E messages w).1 = Returned answer)
  ∧ (secondary_failed (groq_create E messages) →
     (getSarvamChatResponse E messages w).1
     = Returned "Sorry, I encountered an error while analyzing the document with the AI service.").
Proof.
  intros Hfail. rewrite (getSarvamChatResponse_falls_back _ _ Hfail).
  split; [|split; [|split]].
  - rewrite getGroqAnalysis_log, <- app_assoc. reflexivity.
  - apply getGroqAnalysis_answer.
  - intros c answer Hc Hans Hne.
    unfold getGroqAnalysis, try_catch, bind, emit, lift, ret. simpl.
    rewrite Hc. simpl. rewrite Hans. simpl.
    unfold or_default. destruct (decide (answer = EmptyString)); congruence.
  - unfold getGroqAnalysis, try_catch, bind, emit, lift, ret. simpl.
    destruct (groq_create E messages) as [c|e]; simpl; [|done].
    unfold first_choice_content. intros ->. reflexivity.
Qed.

End TranslationProperties.

(** * Properties of the session revision *)

Section SessionProperties.
Import Session.

(** ** Identifiers *)

Lemma is_uuid_v4_length s : is_uuid_v4 s = true → String.length s = 36%nat.
Proof.
  unfold is_uuid_v4. intros H. apply andb_true_iff in H as [H _].
  by apply bool_decide_eq_true in H.
Qed.

Lemma is_uuid_v4_nonempty s : is_uuid_v4 s = true → s ≠ EmptyString.
Proof. intros H%is_uuid_v4_length ->. discriminate. Qed.

Lemma is_uuid_v4_not_inherited s :
  is_uuid_v4 s = true → s ∉ object_prototype_keys.
Proof.
  intros H%is_uuid_v4_length Hin. unfold object_prototype_keys in Hin.
  repeat (apply elem_of_cons in Hin as [-> | Hin]; [discriminate|]).
  by apply elem_of_nil in Hin.
Qed.

Lemma is_uuid_v4_not_proto s : is_uuid_v4 s = true → s ≠ "__proto__".
Proof. intros H%is_uuid_v4_length ->. discriminate. Qed.

(** ** The store *)

Lemma js_get_own o k v : o !! k = Some v → js_get o k = JString v.
Proof. unfold js_get. by intros ->. Qed.

Lemma js_get_absent o k :
  o !! k = None → k ∉ object_prototype_keys → js_get o k = JUndefined.
Proof. unfold js_get. intros -> Hk. by rewrite decide_False. Qed.

Lemma js_set_lookup o k v : k ≠ "__proto__" → js_set o k v !! k = Some v.
Proof. unfold js_set. intros Hk. rewrite decide_False by done. apply lookup_insert_eq. Qed.

Lemma js_set_lookup_ne o k k' v : k ≠ k' → js_set o k v !! k' = o !! k'.
Proof.
  unfold js_set. intros Hk. destruct (decide (k = "__proto__")); [done|].
  by apply lookup_insert_ne.
Qed.

(** ** What the handlers do to the state *)

Lemma getInitialAIAnalysis_state E t w :
  w_state (getInitialAIAnalysis E t w).2 = w_state w.
Proof.
  unfold getInitialAIAnalysis, bind, emit, lift, ret. simpl.
  destruct (groq_create E _) as [c|e]; simpl; [|done].
  destruct (first_choice_content c); reflexivity.
Qed.

Lemma getFollowUpAIResponse_world E v q w :
  (getFollowUpAIResponse E v q w).2
  = World (w_state w) (w_calls w ++ [answer_request v q]).
Proof.
  unfold getFollowUpAIResponse, bind, emit, lift, ret, answer_request. simpl.
  destruct (groq_create E _) as [c|e]; simpl; [|done].
  destruct (first_choice_content c); reflexivity.
Qed.

(** Once pdf-parse has returned, the session is created, whatever the
    analysis does afterwards. *)
Lemma upload_handler_parsed E req buffer data w :
  file req = Some buffer → pdf E buffer = Returned data →
  w_state (upload_handler E req w).2
  = session_created (uuidv4 E) (text data) (w_state w).
Proof.
  intros Hf Hp. unfold upload_handler. rewrite Hf.
  unfold try_catch, bind at 1, emit. simpl.
  unfold bind at 1, lift. rewrite Hp.
  unfold bind at 1, store_write. simpl.
  unfold bind at 1, setTimeout_expire. simpl.
  unfold bind at 1.
  match goal with |- context [getInitialAIAnalysis E ?t ?w0] =>
    pose proof (getInitialAIAnalysis_state E t w0) as Hst;
    destruct (getInitialAIAnalysis E t w0) as [[a|e] w1]
  end; simpl in *.
  - by rewrite Hst.
  - destruct (mentions_xref e); simpl; by rewrite Hst.
Qed.

(** When pdf-parse throws, nothing is stored and no timer is set. *)
Lemma upload_handler_rejected E req buffer e w :
  file req = Some buffer → pdf E buffer = Thrown e →
  upload_handler E req w
  = (Returned (if mentions_xref e then extraction_failure else processing_failure),
     World (w_state w) (w_calls w ++ [PdfParse buffer])).
Proof.
  intros Hf Hp. unfold upload_handler. rewrite Hf.
  unfold try_catch, bind at 1, emit. simpl.
  unfold bind at 1, lift. rewrite Hp.
  destruct (mentions_xref e); reflexivity.
Qed.

Lemma upload_handler_no_file E req w :
  file req = None →
  upload_handler E req w
  = (Returned {| status := 400; body := JsonError "No PDF file uploaded." |}, w).
Proof. intros Hf. unfold upload_handler. by rewrite Hf. Qed.

Lemma chat_handler_state E req w :
  w_state (chat_handler E req w).2 = w_state w.
Proof.
  unfold chat_handler.
  destruct (falsy (sessionId req) || falsy (question req)); [done|].
  unfold bind at 1, store_read. simpl.
  destruct (negb (truthy _)); [done|].
  unfold try_catch, bind at 1.
  match goal with |- context [getFollowUpAIResponse E ?v ?q ?w0] =>
    pose proof (getFollowUpAIResponse_world E v q w0) as Hw;
    destruct (getFollowUpAIResponse E v q w0) as [[a|e] w1]
  end; simpl in *; by rewrite Hw.
Qed.

(** A lookup that misses is answered 404, and no request is built. *)
Lemma chat_handler_miss E sid q s :
  sid ≠ EmptyString → q ≠ EmptyString → lookup s sid = JUndefined →
  serve (chat_handler E (follow_up sid q)) s
  = (Returned session_expired_or_invalid, World s []).
Proof.
  intros Hs Hq Hl. unfold serve, chat_handler, follow_up, falsy. simpl.
  rewrite !decide_False by done. simpl.
  unfold bind, store_read. simpl. unfold lookup in Hl. rewrite Hl. reflexivity.
Qed.

(** A lookup that finds a truthy value builds the request pairing that
    value with the question, and is not answered 404. *)
Lemma chat_handler_found E sid q v s :
  sid ≠ EmptyString → q ≠ EmptyString →
  lookup s sid = v → truthy v = true →
  (serve (chat_handler E (follow_up sid q)) s).2 = World s [answer_request v q]
  ∧ ∃ r, (serve (chat_handler E (follow_up sid q)) s).1 = Returned r
         ∧ status r ≠ 404.
Proof.
  intros Hs Hq Hl Hv. unfold serve, chat_handler, follow_up, falsy. simpl.
  rewrite !decide_False by done. simpl.
  unfold bind at 1 3, store_read. simpl. unfold lookup in Hl. rewrite Hl, Hv.
  simpl. unfold try_catch, bind.
  match goal with |- context [getFollowUpAIResponse E ?v ?q ?w0] =>
    pose proof (getFollowUpAIResponse_world E v q w0) as Hw;
    destruct (getFollowUpAIResponse E v q w0) as [[a|e] w1]
  end; simpl in *; rewrite Hw; (split; [done|]); eexists; (split; [done|]); done.
Qed.

Lemma truthy_text t : t ≠ EmptyString → truthy (JString t) = true.
Proof. intros Ht. simpl. by rewrite decide_False. Qed.

End SessionProperties.

Section Runs.
Import Session.

(** ** Events, one at a time *)

Lemma step_chat E req s : step s (Chat E req) = s.
Proof. unfold step, serve. apply (chat_handler_state E req (World s [])). Qed.

Lemma step_upload E req s :
  step s (Upload E req) = s
  ∨ ∃ buffer data,
      file req = Some buffer ∧ pdf E buffer = Returned data
      ∧ step s (Upload E req) = session_created (uuidv4 E) (text data) s.
Proof.
  unfold step, serve. destruct (file req) as [buffer|] eqn:Hf.
  - destruct (pdf E buffer) as [data|e] eqn:Hp.
    + right. exists buffer, data. split; [done|]. split; [done|].
      apply (upload_handler_parsed E req buffer data (World s []) Hf Hp).
    + left. by rewrite (upload_handler_rejected E req buffer e _ Hf Hp).
  - left. by rewrite (upload_handler_no_file E req _ Hf).
Qed.

(** The callbacks of a list of timers, run in order, delete exactly the
    keys they close over. *)
Lemma expire_all_lookup (l : list (N * string)) s k :
  documentContextStore (fold_left (λ acc tm, expire tm.2 acc) l s) !! k
  = if decide (k ∈ l.*2) then None else documentContextStore s !! k.
Proof.
  revert s. induction l as [|[d sid] l IH]; intros s.
  - rewrite decide_False; [done|]. apply not_elem_of_nil.
  - cbn [fold_left]. rewrite IH, fmap_cons. clear IH.
    cbn [snd expire documentContextStore]. unfold js_delete.
    destruct (decide (k ∈ l.*2)) as [Hin|Hin].
    + rewrite decide_True; [done|]. apply elem_of_cons. by right.
    + destruct (decide (k = sid)) as [->|Hne].
      * rewrite lookup_delete_eq, decide_True; [done|]. apply elem_of_cons. by left.
      * rewrite lookup_delete_ne by done. rewrite decide_False; [done|].
        intros [?|?]%elem_of_cons; done.
Qed.

Lemma advance_now dt s : now (advance dt s) = now s + dt.
Proof. reflexivity. Qed.

Lemma advance_timers dt s tm :
  tm ∈ timers (advance dt s) ↔ tm ∈ timers s ∧ now s + dt < tm.1.
Proof.
  unfold advance. simpl. rewrite list_elem_of_filter. split.
  - intros [H ?]. split; [done|]. lia.
  - intros [? H]. split; [lia|done].
Qed.

Lemma advance_lookup dt s k :
  documentContextStore (advance dt s) !! k
  = if decide (k ∈ (filter (λ tm, tm.1 ≤ now s + dt) (timers s)).*2)
    then None else documentContextStore s !! k.
Proof. unfold advance. simpl. apply expire_all_lookup. Qed.

(** A key one of whose timers is due is gone after the advance. *)
Lemma advance_fires dt s d k :
  (d, k) ∈ timers s → d ≤ now s + dt →
  documentContextStore (advance dt s) !! k = None.
Proof.
  intros Hin Hd. rewrite advance_lookup. rewrite decide_True; [done|].
  apply list_elem_of_fmap. exists (d, k). split; [done|].
  apply list_elem_of_filter. done.
Qed.

(** A key none of whose timers is due is left alone. *)
Lemma advance_spares dt s k :
  (∀ d, (d, k) ∈ timers s → now s + dt < d) →
  documentContextStore (advance dt s) !! k = documentContextStore s !! k.
Proof.
  intros Hk. rewrite advance_lookup. rewrite decide_False; [done|].
  intros ([d k'] & Heq & [Hd Hin]%list_elem_of_filter)%list_elem_of_fmap.
  simpl in *. subst k'. specialize (Hk d Hin). lia.
Qed.

(** The clock never goes back. *)
Lemma step_now_mono s ev : now s ≤ now (step s ev).
Proof.
  destruct ev as [E req|E req|dt].
  - destruct (step_upload E req s) as [->|(b & d & _ & _ & ->)]; simpl; lia.
  - rewrite step_chat. lia.
  - simpl. lia.
Qed.

Lemma run_now_mono evs s : now s ≤ now (run evs s).
Proof.
  revert s. induction evs as [|ev evs IH]; intros s; simpl; [lia|].
  etrans; [apply (step_now_mono s ev)|apply IH].
Qed.

(** ** Pending timers are in the future *)

Lemma timers_pending_step s ev : timers_pending s → timers_pending (step s ev).
Proof.
  intros Hs. destruct ev as [E req|E req|dt].
  - destruct (step_upload E req s) as [->|(b & d & _ & _ & ->)]; [done|].
    intros tm [Hin|Hin]%elem_of_app; simpl.
    + by apply Hs.
    + apply list_elem_of_singleton in Hin as ->. simpl. unfold TTL. lia.
  - by rewrite step_chat.
  - intros tm [_ Hlt]%advance_timers. exact Hlt.
Qed.

Lemma timers_pending_run evs s : timers_pending s → timers_pending (run evs s).
Proof.
  revert s. induction evs as [|ev evs IH]; intros s Hs; simpl; [done|].
  apply IH. by apply timers_pending_step.
Qed.

Lemma reachable_timers_pending s : reachable s → timers_pending s.
Proof.
  intros [evs ->]. apply timers_pending_run. intros tm Hin.
  by apply elem_of_nil in Hin.
Qed.

(** ** Expiry *)

Lemma expiry_scheduled_step sid deadline s ev :
  drawn ev ≠ Some sid →
  expiry_scheduled sid deadline s → expiry_scheduled sid deadline (step s ev).
Proof.
  intros Hev Hs. destruct ev as [E req|E req|dt].
  - destruct (step_upload E req s) as [->|(b & data & _ & _ & ->)]; [done|].
    simpl in Hev. assert (uuidv4 E ≠ sid) as Hne by congruence.
    unfold expiry_scheduled, session_created. simpl.
    rewrite js_set_lookup_ne by done. intros [d [Hin Hd]]%Hs.
    exists d. split; [|done]. apply elem_of_app. by left.
  - by rewrite step_chat.
  - simpl. intros Hsome.
    destruct (decide (is_Some (documentContextStore s !! sid))) as [Hold|Hold].
    + destruct (Hs Hold) as [d [Hin Hd]]. exists d. split; [|done].
      apply advance_timers. split; [done|]. simpl.
      destruct (decide (d ≤ now s + dt)) as [Hdue|]; [|lia].
      rewrite (advance_fires dt s d sid Hin Hdue) in Hsome.
      by destruct Hsome.
    + rewrite advance_lookup in Hsome.
      destruct (decide _); [by destruct Hsome|done].
Qed.

Lemma expiry_scheduled_run sid deadline evs s :
  never_redrawn sid evs →
  expiry_scheduled sid deadline s → expiry_scheduled sid deadline (run evs s).
Proof.
  revert s. induction evs as [|ev evs IH]; intros s Hevs Hs; simpl; [done|].
  apply Forall_cons in Hevs as [Hev Hevs].
  apply IH; [done|]. by apply expiry_scheduled_step.
Qed.

(** Past the deadline the session is gone. *)
Lemma expired_after sid deadline s :
  timers_pending s → expiry_scheduled sid deadline s → deadline ≤ now s →
  documentContextStore s !! sid = None.
Proof.
  intros Hp Hs Hd. apply eq_None_not_Some. intros [d [Hin Hle]]%Hs.
  specialize (Hp _ Hin). simpl in Hp. lia.
Qed.

(** ** Life before expiry *)

Lemma session_live_step sid t deadline s ev :
  drawn ev ≠ Some sid → now (step s ev) < deadline →
  session_live sid t deadline s → session_live sid t deadline (step s ev).
Proof.
  intros Hev Hnow [Hst Htm]. destruct ev as [E req|E req|dt].
  - destruct (step_upload E req s) as [->|(b & data & _ & _ & ->)]; [done|].
    simpl in Hev. assert (uuidv4 E ≠ sid) as Hne by congruence.
    split; simpl.
    + by rewrite js_set_lookup_ne.
    + intros d [Hin|Hin]%elem_of_app; [by apply Htm|].
      apply list_elem_of_singleton in Hin. congruence.
  - by rewrite step_chat.
  - simpl in *. split.
    + rewrite advance_spares; [done|]. intros d Hin%Htm. lia.
    + intros d [Hin _]%advance_timers. by apply Htm.
Qed.

Lemma session_live_run sid t deadline evs s :
  never_redrawn sid evs → now (run evs s) < deadline →
  session_live sid t deadline s → session_live sid t deadline (run evs s).
Proof.
  revert s. induction evs as [|ev evs IH]; intros s Hevs Hnow Hs; simpl; [done|].
  apply Forall_cons in Hevs as [Hev Hevs]. simpl in Hnow.
  apply IH; [done|done|]. apply session_live_step; [done| |done].
  pose proof (run_now_mono evs (step s ev)). unfold run in *. lia.
Qed.

End Runs.

Section Sessions.
Import Session.

(** ** Creation, lookup and expiry along a run *)

Lemma step_upload_parsed E req buffer data s :
  file req = Some buffer → pdf E buffer = Returned data →
  step s (Upload E req) = session_created (uuidv4 E) (text data) s.
Proof.
  intros Hf Hp. unfold step, serve.
  apply (upload_handler_parsed E req buffer data (World s []) Hf Hp).
Qed.

Lemma session_created_lookup sid t s :
  sid ≠ "__proto__" → lookup (session_created sid t s) sid = JString t.
Proof. intros Hk. apply js_get_own. simpl. by apply js_set_lookup. Qed.

Lemma session_created_timer sid t s :
  (now s + TTL, sid) ∈ timers (session_created sid t s).
Proof. simpl. apply elem_of_app. right. by apply list_elem_of_singleton. Qed.

Lemma session_created_pending sid t s :
  timers_pending s → timers_pending (session_created sid t s).
Proof.
  intros Hs tm [Hin|Hin]%elem_of_app; simpl.
  - by apply Hs.
  - apply list_elem_of_singleton in Hin as ->. simpl. unfold TTL. lia.
Qed.

(** Thirty minutes after its creation a session cannot be looked up. *)
Lemma created_then_expired sid t s evs :
  timers_pending s → sid ∉ object_prototype_keys → never_redrawn sid evs →
  now s + TTL ≤ now (run evs (session_created sid t s)) →
  lookup (run evs (session_created sid t s)) sid = JUndefined.
Proof.
  intros Hp Hk Hevs Hnow. apply js_get_absent; [|done].
  apply (expired_after sid (now s + TTL)); [| |done].
  - by apply timers_pending_run, session_created_pending.
  - apply expiry_scheduled_run; [done|]. intros _.
    exists (now s + TTL). split; [apply session_created_timer|lia].
Qed.

(** Until then it is looked up with the text it was created with. *)
Lemma created_then_live sid t s evs :
  sid ≠ "__proto__" → sid ∉ (timers s).*2 → never_redrawn sid evs →
  now (run evs (session_created sid t s)) < now s + TTL →
  lookup (run evs (session_created sid t s)) sid = JString t.
Proof.
  intros Hk Hfresh Hevs Hnow. apply js_get_own.
  apply (session_live_run sid t (now s + TTL)); [done|done|]. split.
  - simpl. by apply js_set_lookup.
  - intros d [Hin|Hin]%elem_of_app.
    + exfalso. apply Hfresh. apply list_elem_of_fmap. by exists (d, sid).
    + apply list_elem_of_singleton in Hin. injection Hin as ->. lia.
Qed.

(** ** The analysis, seen from the upload handler *)

Lemma getInitialAIAnalysis_outcome E t w :
  (getInitialAIAnalysis E t w).1 = analysis_outcome E t.
Proof.
  unfold analysis_outcome, getInitialAIAnalysis, bind, emit, lift, ret. simpl.
  destruct (groq_create E _) as [c|e]; simpl; [|done].
  destruct (first_choice_content c); reflexivity.
Qed.

Lemma upload_handler_parsed_response E req buffer data w :
  file req = Some buffer → pdf E buffer = Returned data →
  (upload_handler E req w).1
  = Returned
      match analysis_outcome E (text data) with
      | Returned aiSummary =>
          {| status := 200; body := JsonUpload aiSummary (uuidv4 E) |}
      | Thrown e => if mentions_xref e then extraction_failure else processing_failure
      end.
Proof.
  intros Hf Hp. unfold upload_handler. rewrite Hf.
  unfold try_catch, bind at 1, emit. simpl.
  unfold bind at 1, lift. rewrite Hp.
  unfold bind at 1, store_write. simpl.
  unfold bind at 1, setTimeout_expire. simpl.
  unfold bind at 1.
  match goal with |- context [getInitialAIAnalysis E ?t ?w0] =>
    pose proof (getInitialAIAnalysis_outcome E t w0) as Ho;
    destruct (getInitialAIAnalysis E t w0) as [[a|e] w1]
  end; simpl in *; rewrite <- Ho; [done|].
  destruct (mentions_xref e); reflexivity.
Qed.

(** ** The specified properties *)

(** The round trip of a document text that is not empty: when pdf-parse
    returns that text and the upload is answered with a session id (a uuid,
    as [uuidv4] draws them), a follow-up sent at once with that id and a
    non-empty question looks up exactly that text: the request built for
    the answering service pairs it with the question, and the answer is not
    the 404 of a missing session. *)
Theorem upload_then_lookup_roundtrip E E' req buffer data aiSummary sid q s w1 :
  file req = Some buffer → pdf E buffer = Returned data →
  text data ≠ EmptyString →
  is_uuid_v4 (uuidv4 E) = true →
  serve (upload_handler E req) s
  = (Returned {| status := 200; body := JsonUpload aiSummary sid |}, w1) →
  q ≠ EmptyString →
  lookup (w_state w1) sid = JString (text data)
  ∧ (serve (chat_handler E' (follow_up sid q)) (w_state w1)).2
    = World (w_state w1) [answer_request (JString (text data)) q]
  ∧ ∃ r, (serve (chat_handler E' (follow_up sid q)) (w_state w1)).1 = Returned r
         ∧ status r ≠ 404.
Proof.
  intros Hf Hp Ht Hu Hup Hq.
  pose proof (upload_handler_parsed_response E req buffer data (World s []) Hf Hp) as Hr.
  pose proof (upload_handler_parsed E req buffer data (World s []) Hf Hp) as Hs.
  unfold serve in Hup. rewrite Hup in Hr, Hs. simpl in Hr, Hs.
  assert (sid = uuidv4 E) as ->.
  { destruct (analysis_outcome E (text data)) as [a|e].
    - by injection Hr.
    - destruct (mentions_xref e); discriminate. }
  assert (lookup (w_state w1) (uuidv4 E) = JString (text data)) as Hl.
  { rewrite Hs. apply session_created_lookup. by apply is_uuid_v4_not_proto. }
  split; [done|].
  apply chat_handler_found; [by apply is_uuid_v4_nonempty|done|done|by apply truthy_text].
Qed.

(** C2. A session created by an upload at some time cannot be looked up
    once 30 minutes have passed, by whatever events.  Right after the
    upload the chat route finds the session: for a document text that is
    not empty, the follow-up makes the route build the request to the
    answering service around that text, and the answer is not the 404 of a
    missing session.  Once the 30 minutes have passed the same follow-up
    is answered by that 404, nothing being sent to the answering service,
    and the store has nothing under the identifier; and it stays so after
    any further events, as long as [uuidv4] does not draw the same
    identifier again. *)
Theorem expiry_is_final E E' req buffer data s evs evs' q :
  reachable s →
  file req = Some buffer → pdf E buffer = Returned data →
  is_uuid_v4 (uuidv4 E) = true → q ≠ EmptyString →
  never_redrawn (uuidv4 E) evs → never_redrawn (uuidv4 E) evs' →
  now s + TTL ≤ now (run evs (step s (Upload E req))) →
  (text data ≠ EmptyString →
   (serve (chat_handler E' (follow_up (uuidv4 E) q)) (step s (Upload E req))).2
   = World (step s (Upload E req)) [answer_request (JString (text data)) q]
   ∧ ∃ r, (serve (chat_handler E' (follow_up (uuidv4 E) q))
             (step s (Upload E req))).1 = Returned r
          ∧ status r ≠ 404)
  ∧ lookup (step s (Upload E req)) (uuidv4 E) = JString (text data)
  ∧ lookup (run evs' (run evs (step s (Upload E req)))) (uuidv4 E) = JUndefined
  ∧ serve (chat_handler E' (follow_up (uuidv4 E) q))
          (run evs' (run evs (step s (Upload E req))))
    = (Returned session_expired_or_invalid,
       World (run evs' (run evs (step s (Upload E req)))) []).
Proof.
  intros Hr Hf Hp Hu Hq Hevs Hevs' Hnow.
  rewrite (step_upload_parsed E req buffer data s Hf Hp) in *.
  assert (lookup (session_created (uuidv4 E) (text data) s) (uuidv4 E)
          = JString (text data)) as Hstored.
  { apply session_created_lookup. by apply is_uuid_v4_not_proto. }
  split.
  { intros Ht.
    apply chat_handler_found;
      [by apply is_uuid_v4_nonempty|done|done|by apply truthy_text]. }
  assert (lookup (run evs' (run evs (session_created (uuidv4 E) (text data) s)))
            (uuidv4 E) = JUndefined) as Hgone.
  { unfold run. rewrite <- fold_left_app.
    apply created_then_expired.
    - by apply reachable_timers_pending.
    - by apply is_uuid_v4_not_inherited.
    - by apply Forall_app.
    - unfold run at 1. rewrite fold_left_app.
      etrans; [exact Hnow|]. apply run_now_mono. }
  split; [|split].
  - done.
  - done.
  - apply chat_handler_miss; [by apply is_uuid_v4_nonempty|done|done].
Qed.

(** C3, at the failing input. No session has been created, and the
    follow-up names the session id [constructor]: the lookup finds the
    member of [Object.prototype] of that name, a request is built for the
    answering service around the source text of that function, and the
    answer is not the 404 of a missing session. *)
Theorem inherited_key_resolves E :
  lookup init "constructor" = JInherited "constructor"
  ∧ (serve (chat_handler E (follow_up "constructor" "What is the rent?")) init).2
    = World init [answer_request (JInherited "constructor") "What is the rent?"]
  ∧ ∃ r, (serve (chat_handler E (follow_up "constructor" "What is the rent?")) init).1
         = Returned r
         ∧ status r ≠ 404.
Proof.
  split; [reflexivity|]. by apply chat_handler_found.
Qed.

(** X1. For an identifier that is neither stored nor the name of a member
    of [Object.prototype], the follow-up is answered 404, no request is
    built and the state is left as it was. *)
Lemma unknown_session_is_rejected E sid q s :
  sid ≠ EmptyString → q ≠ EmptyString →
  documentContextStore s !! sid = None → sid ∉ object_prototype_keys →
  serve (chat_handler E (follow_up sid q)) s
  = (Returned session_expired_or_invalid, World s []).
Proof.
  intros Hs Hq Hst Hk. apply chat_handler_miss; [done|done|].
  by apply js_get_absent.
Qed.

(** C5 (as amended). When pdf-parse throws, the upload is answered with an
    error and the state is left as it was: nothing is stored, no timer is
    set, and every lookup gives what it gave before.  The answer is the
    400 asking to re-save the file when the message of the error mentions
    xref, and the generic 500 otherwise. *)
Theorem extraction_failure_creates_no_session E req buffer e s :
  file req = Some buffer → pdf E buffer = Thrown e →
  serve (upload_handler E req) s
  = (Returned (if mentions_xref e then extraction_failure else processing_failure),
     World s [PdfParse buffer])
  ∧ step s (Upload E req) = s
  ∧ ∀ sid, lookup (step s (Upload E req)) sid = lookup s sid.
Proof.
  intros Hf Hp.
  pose proof (upload_handler_rejected E req buffer e (World s []) Hf Hp) as H.
  assert (step s (Upload E req) = s) as Hs.
  { unfold step, serve. by rewrite H. }
  split; [exact H|]. split; [exact Hs|]. intros sid. by rewrite Hs.
Qed.

(** C8. The chat handler leaves the store, the timers and the clock as
    they were, whatever the request and whatever it is answered; so does
    the lookup itself, and so does any series of follow-ups. *)
Theorem lookup_has_no_side_effect E req s calls (chats : list (env * chat_body)) :
  w_state (chat_handler E req (World s calls)).2 = s
  ∧ (∀ sid w, (store_read sid w).2 = w)
  ∧ run (map (λ c, Chat c.1 c.2) chats) s = s.
Proof.
  split; [apply (chat_handler_state E req (World s calls))|].
  split; [done|].
  unfold run. induction chats as [|[E0 r0] chats IH]; [done|].
  cbn [map fold_left fst snd]. by rewrite step_chat.
Qed.

(** C9. Running the callback of the timer a second time changes nothing,
    and running it when the entry is not there leaves the state as it
    is. *)
Theorem expire_idempotent sid s :
  expire sid (expire sid s) = expire sid s
  ∧ (documentContextStore s !! sid = None → expire sid s = s).
Proof.
  destruct s as [store tms t]. unfold expire, js_delete. simpl. split.
  - f_equal. apply map_eq. intros k.
    destruct (decide (k = sid)) as [->|Hne].
    + by rewrite !lookup_delete_eq.
    + by rewrite !lookup_delete_ne.
  - intros Hnone. f_equal. by apply delete_id.
Qed.

(** C10. When pdf-parse succeeds and the analysis then throws, the upload
    is answered with an error that carries no session id; yet the text is
    stored under the identifier drawn, with its timer set 30 minutes ahead,
    and it can be looked up until that time and no longer afterwards. *)
Theorem session_survives_failed_analysis E req buffer data e s evs :
  reachable s →
  file req = Some buffer → pdf E buffer = Returned data →
  analysis_outcome E (text data) = Thrown e →
  is_uuid_v4 (uuidv4 E) = true →
  uuidv4 E ∉ (timers s).*2 →
  never_redrawn (uuidv4 E) evs →
  (serve (upload_handler E req) s).1
  = Returned (if mentions_xref e then extraction_failure else processing_failure)
  ∧ lookup (step s (Upload E req)) (uuidv4 E) = JString (text data)
  ∧ (now s + TTL, uuidv4 E) ∈ timers (step s (Upload E req))
  ∧ (now (run evs (step s (Upload E req))) < now s + TTL →
     lookup (run evs (step s (Upload E req))) (uuidv4 E) = JString (text data))
  ∧ (now s + TTL ≤ now (run evs (step s (Upload E req))) →
     lookup (run evs (step s (Upload E req))) (uuidv4 E) = JUndefined).
Proof.
  intros Hr Hf Hp Ha Hu Hfresh Hevs.
  pose proof (upload_handler_parsed_response E req buffer data (World s []) Hf Hp) as Hresp.
  rewrite Ha in Hresp.
  rewrite (step_upload_parsed E req buffer data s Hf Hp).
  pose proof (is_uuid_v4_not_proto _ Hu) as Hk.
  split; [exact Hresp|]. split; [by apply session_created_lookup|].
  split; [apply session_created_timer|]. split.
  - intros Hnow. by apply created_then_live.
  - intros Hnow. apply created_then_expired; [|by apply is_uuid_v4_not_inherited|done|done].
    by apply reachable_timers_pending.
Qed.

End Sessions.

(** * The properties at concrete inputs *)

Section Instances.
Import Session.

Lemma translateText_absorbs_failure_witness :
  (Translation.translateText translation_down "Failed to process the PDF file."
     "hi-IN" "en-IN" []).1
  = Returned "Failed to process the PDF file.".
Proof.
  apply (translateText_absorbs_failure translation_down
           "Failed to process the PDF file." "hi-IN" "en-IN" []).
  exact I.
Defined.

Lemma fallback_chain_witness :
  (Translation.getSarvamChatResponse translation_down
     [Msg.mk "user" "What is the rent?"] []).1
  = Returned "Sorry, I encountered an error while analyzing the document with the AI service.".
Proof.
  apply (fallback_chain translation_down [Msg.mk "user" "What is the rent?"] []);
    exact I.
Defined.

Lemma upload_then_lookup_roundtrip_witness :
  lookup (w_state (serve (upload_handler (parsed_world lease) pdf_upload) init).2)
    sample_uuid
  = JString lease.
Proof.
  apply (upload_then_lookup_roundtrip (parsed_world lease) (parsed_world lease)
           pdf_upload "%PDF-1.4" {| text := lease; numpages := 1 |}
           "Summary" sample_uuid "What is the rent?" init
           (serve (upload_handler (parsed_world lease) pdf_upload) init).2);
    (reflexivity || discriminate).
Defined.

(** C1, at the failing input.  pdf-parse extracts the empty text from the
    uploaded file: the upload is answered 200 with a session id, and the
    follow-up sent at once with that id is answered by the 404 of a missing
    session, nothing being sent to the answering service. *)
Lemma empty_text_is_not_found :
  (serve (upload_handler (parsed_world EmptyString) pdf_upload) init).1
  = Returned {| status := 200; body := JsonUpload "Summary" sample_uuid |}
  ∧ serve (chat_handler (parsed_world EmptyString)
             (follow_up sample_uuid "What is the rent?"))
          (step init (Upload (parsed_world EmptyString) pdf_upload))
    = (Returned session_expired_or_invalid,
       World (step init (Upload (parsed_world EmptyString) pdf_upload)) []).
Proof. split; reflexivity. Qed.

Lemma expiry_is_final_witness :
  (∃ r, (serve (chat_handler (parsed_world lease)
                  (follow_up sample_uuid "What is the rent?"))
           (step init (Upload (parsed_world lease) pdf_upload))).1 = Returned r
        ∧ status r ≠ 404)
  ∧ serve (chat_handler (parsed_world lease)
             (follow_up sample_uuid "What is the rent?"))
          (run [Advance 5]
             (run [Chat (parsed_world lease) (follow_up sample_uuid "What is the rent?");
                   Advance TTL]
                (step init (Upload (parsed_world lease) pdf_upload))))
    = (Returned session_expired_or_invalid,
       World (run [Advance 5]
                (run [Chat (parsed_world lease)
                        (follow_up sample_uuid "What is the rent?");
                      Advance TTL]
                   (step init (Upload (parsed_world lease) pdf_upload)))) []).
Proof.
  assert (reachable init) as Hr by (by exists []).
  assert (never_redrawn sample_uuid
            [Chat (parsed_world lease) (follow_up sample_uuid "What is the rent?");
             Advance TTL]) as He by (repeat constructor; discriminate).
  assert (never_redrawn sample_uuid [Advance 5]) as He'
    by (repeat constructor; discriminate).
  assert (now init + TTL
          ≤ now (run [Chat (parsed_world lease)
                        (follow_up sample_uuid "What is the rent?");
                      Advance TTL]
                   (step init (Upload (parsed_world lease) pdf_upload)))) as Hn
    by (vm_compute; discriminate).
  destruct (expiry_is_final (parsed_world lease) (parsed_world lease)
              pdf_upload "%PDF-1.4" {| text := lease; numpages := 1 |} init
              [Chat (parsed_world lease) (follow_up sample_uuid "What is the rent?");
               Advance TTL]
              [Advance 5] "What is the rent?"
              Hr eq_refl eq_refl eq_refl ltac:(discriminate) He He' Hn)
    as (Hbefore & _ & _ & Hafter).
  split; [|exact Hafter].
  apply Hbefore. discriminate.
Defined.

Lemma extraction_failure_creates_no_session_witness :
  serve (upload_handler (corrupted_world "bad XRef entry") pdf_upload) init
  = (Returned extraction_failure, World init [PdfParse "%PDF-1.4"]).
Proof.
  apply (extraction_failure_creates_no_session (corrupted_world "bad XRef entry")
           pdf_upload "%PDF-1.4" (JsError (Some "bad XRef entry")) init);
    reflexivity.
Defined.

(** C5, as stated, fails for an extraction error whose message does not
    mention xref: the answer is the generic 500, not the request to
    re-save the file. *)
Lemma unrecognised_extraction_error_is_generic :
  (serve (upload_handler (corrupted_world "Invalid PDF structure") pdf_upload) init).1
  = Returned processing_failure
  ∧ (serve (upload_handler (corrupted_world "Invalid PDF structure") pdf_upload) init).1
    ≠ Returned extraction_failure.
Proof. split; [reflexivity|discriminate]. Qed.

Lemma unknown_session_is_rejected_witness :
  serve (chat_handler (parsed_world lease) (follow_up "bogus-id" "What is the rent?")) init
  = (Returned session_expired_or_invalid, World init []).
Proof.
  apply (unknown_session_is_rejected (parsed_world lease) "bogus-id"
           "What is the rent?" init); try discriminate; [reflexivity|].
  unfold object_prototype_keys. intros Hin.
  repeat (apply elem_of_cons in Hin as [Hin | Hin]; [discriminate|]).
  by apply elem_of_nil in Hin.
Defined.

Lemma expire_idempotent_witness : expire sample_uuid init = init.
Proof. apply (expire_idempotent sample_uuid init). reflexivity. Defined.

Lemma session_survives_failed_analysis_witness :
  (serve (upload_handler (analysis_down_world lease) pdf_upload) init).1
  = Returned processing_failure
  ∧ lookup (run [Advance (TTL - 1)]
              (step init (Upload (analysis_down_world lease) pdf_upload)))
      sample_uuid
    = JString lease.
Proof.
  destruct (session_survives_failed_analysis (analysis_down_world lease)
              pdf_upload "%PDF-1.4" {| text := lease; numpages := 1 |}
              (JsError (Some "Connection error.")) init [Advance (TTL - 1)])
    as (Hresp & _ & _ & Hlive & _).
  - by exists [].
  - reflexivity.
  - reflexivity.
  - reflexivity.
  - reflexivity.
  - apply not_elem_of_nil.
  - repeat constructor; discriminate.
  - split; [exact Hresp|]. apply Hlive. reflexivity.
Defined.

End Instances.

(** * Further properties of the session revision *)

Section StoreProperties.
Import Session.

Lemma store_covered_step s ev :
  timers_pending s → store_covered s → store_covered (step s ev).
Proof.
  intros Hp Hs. destruct ev as [E req|E req|dt].
  - destruct (step_upload E req s) as [->|(b & data & _ & _ & ->)]; [done|].
    intros k Hk. simpl in *.
    destruct (decide (uuidv4 E = k)) as [<-|Hne].
    + exists (now s + TTL). split; [|lia].
      apply elem_of_app. right. by apply list_elem_of_singleton.
    + rewrite js_set_lookup_ne in Hk by done.
      destruct (Hs k Hk) as (d & Hin & Hd). exists d. split; [|done].
      apply elem_of_app. by left.
  - by rewrite step_chat.
  - intros k Hk. change (step s (Advance dt)) with (advance dt s) in *.
    rewrite advance_lookup in Hk.
    destruct (decide _) as [|Hnot]; [by destruct Hk|].
    destruct (Hs k Hk) as (d & Hin & Hd). exists d. split.
    + apply advance_timers. split; [done|]. simpl.
      destruct (decide (d ≤ now s + dt)) as [Hdue|]; [|lia].
      exfalso. apply Hnot. apply list_elem_of_fmap. exists (d, k).
      split; [done|]. by apply list_elem_of_filter.
    + simpl. lia.
Qed.

Lemma store_covered_reachable s : reachable s → store_covered s.
Proof.
  intros [evs ->].
  assert (∀ s0, timers_pending s0 → store_covered s0 →
                store_covered (run evs s0)) as Hrun.
  { induction evs as [|ev evs IH]; intros s0 Hp Hs; simpl; [done|].
    apply IH; [by apply timers_pending_step|by apply store_covered_step]. }
  apply Hrun.
  - intros tm Hin. by apply elem_of_nil in Hin.
  - intros k [v Hv]. simpl in Hv. by rewrite lookup_empty in Hv.
Qed.

(** X2. In every state the server can reach, each stored document has a
    pending timer that is due later than now and at most thirty minutes
    from now. *)
Theorem stored_sessions_have_timers s k t :
  reachable s → documentContextStore s !! k = Some t →
  ∃ d, (d, k) ∈ timers s ∧ now s < d ∧ d ≤ now s + TTL.
Proof.
  intros Hr Hk.
  destruct (store_covered_reachable s Hr k) as (d & Hin & Hd); [by eexists|].
  exists d. split; [done|]. split; [|done].
  apply (reachable_timers_pending s Hr _ Hin).
Qed.

(** X3. Thirty minutes without an upload empty the store, whatever
    follow-ups arrive in the meantime. *)
Theorem idle_store_is_purged s evs :
  reachable s → no_upload evs → now s + TTL ≤ now (run evs s) →
  documentContextStore (run evs s) = ∅.
Proof.
  intros Hr Hevs Hnow. apply map_empty. intros k.
  apply (expired_after k (now s + TTL)); [| |done].
  - by apply timers_pending_run, reachable_timers_pending.
  - apply expiry_scheduled_run.
    + eapply Forall_impl; [exact Hevs|]. intros ev Hev. simpl in Hev. congruence.
    + intros Hk. destruct (store_covered_reachable s Hr k Hk) as (d & Hin & Hd).
      by exists d.
Qed.

Lemma step_keeps_or_deletes sid s ev :
  drawn ev ≠ Some sid →
  documentContextStore (step s ev) !! sid = documentContextStore s !! sid
  ∨ documentContextStore (step s ev) !! sid = None.
Proof.
  intros Hev. destruct ev as [E req|E req|dt].
  - destruct (step_upload E req s) as [->|(b & data & _ & _ & ->)]; [by left|].
    left. simpl in *. apply js_set_lookup_ne. congruence.
  - left. by rewrite step_chat.
  - change (step s (Advance dt)) with (advance dt s).
    rewrite advance_lookup. destruct (decide _); [by right|by left].
Qed.

(** X4. The text of a session never changes: whatever happens after it was
    stored, a lookup of its identifier finds that same text or nothing, as
    long as [uuidv4] does not draw the identifier again. *)
Theorem document_text_is_immutable sid t s evs :
  never_redrawn sid evs →
  documentContextStore s !! sid = Some t →
  documentContextStore (run evs s) !! sid = Some t
  ∨ documentContextStore (run evs s) !! sid = None.
Proof.
  revert s. induction evs as [|ev evs IH]; intros s Hevs Hs; simpl; [by left|].
  apply Forall_cons in Hevs as [Hev Hevs].
  destruct (step_keeps_or_deletes sid s ev Hev) as [Heq|Hnone].
  - apply IH; [done|]. by rewrite Heq.
  - right. clear IH Hs. revert Hnone. generalize (step s ev). clear s Hev.
    induction evs as [|ev' evs IH]; intros s Hs; simpl; [done|].
    apply Forall_cons in Hevs as [Hev Hevs].
    apply IH; [done|].
    destruct (step_keeps_or_deletes sid s ev' Hev) as [Heq|Hnone]; [|done].
    by rewrite Heq.
Qed.

(** X5. An upload leaves every other session as it is: its text, and its
    pending timers, are neither removed nor changed. *)
Theorem upload_leaves_other_sessions E req s sid :
  uuidv4 E ≠ sid →
  documentContextStore (step s (Upload E req)) !! sid = documentContextStore s !! sid
  ∧ (∀ d, (d, sid) ∈ timers (step s (Upload E req)) ↔ (d, sid) ∈ timers s)
  ∧ now (step s (Upload E req)) = now s.
Proof.
  intros Hne.
  destruct (step_upload E req s) as [->|(b & data & _ & _ & ->)]; [done|].
  simpl. split; [by apply js_set_lookup_ne|]. split; [|done].
  intros d. rewrite elem_of_app, list_elem_of_singleton. split.
  - intros [?|Heq]; [done|]. congruence.
  - intros ?. by left.
Qed.

End StoreProperties.

Section HandlerProperties.
Import Session.

Lemma getInitialAIAnalysis_world E t w :
  (getInitialAIAnalysis E t w).2
  = World (w_state w) (w_calls w ++ [GroqCreate (initial_messages t) "llama-3.3-70b-versatile"]).
Proof.
  unfold getInitialAIAnalysis, bind, emit, lift, ret. simpl.
  destruct (groq_create E _) as [c|e]; simpl; [|done].
  destruct (first_choice_content c); reflexivity.
Qed.

Lemma upload_handler_cases E req w :
  ∃ r, (upload_handler E req w).1 = Returned r
       ∧ (r = no_file_uploaded ∨ r = extraction_failure ∨ r = processing_failure
          ∨ ∃ aiSummary, r = {| status := 200;
                                body := JsonUpload aiSummary (uuidv4 E) |}).
Proof.
  destruct (file req) as [buffer|] eqn:Hf.
  - destruct (pdf E buffer) as [data|e] eqn:Hp.
    + rewrite (upload_handler_parsed_response E req buffer data w Hf Hp).
      eexists. split; [done|].
      destruct (analysis_outcome E (text data)) as [a|e]; [by eauto 6|].
      destruct (mentions_xref e); auto.
    + rewrite (upload_handler_rejected E req buffer e w Hf Hp). simpl.
      eexists. split; [done|]. destruct (mentions_xref e); auto.
  - rewrite (upload_handler_no_file E req w Hf). simpl. eauto.
Qed.

(** X6. The handler of the upload route, whenever multer calls it (with
    [req.file] set or left [undefined]), answers, and only in four ways:
    the 400 for a missing file, the 400 for a corrupted file, the generic
    500, or 200 with a summary and the identifier drawn.  It never throws,
    and no text of an error thrown by pdf-parse or by Groq reaches the
    answer.  (A form that multer itself refuses does not reach the
    handler.) *)
Theorem upload_handler_answers E req w :
  ∃ r, (upload_handler E req w).1 = Returned r
       ∧ (r = no_file_uploaded ∨ r = extraction_failure ∨ r = processing_failure
          ∨ ∃ aiSummary, r = {| status := 200;
                                body := JsonUpload aiSummary (uuidv4 E) |}).
Proof. apply upload_handler_cases. Qed.

(** On a body whose two properties are strings or missing, the handler
    for JSON bodies is the handler of the other statements. *)
Lemma chat_handler_json_strings E req w :
  chat_handler_json E (Json.Str <$> sessionId req) (Json.Str <$> question req) w
  = chat_handler E req w.
Proof.
  destruct req as [[sid|] [q|]]; unfold chat_handler_json, chat_handler, falsy_value, falsy;
    simpl; try reflexivity.
  - destruct (decide (sid = EmptyString)); [reflexivity|].
    destruct (decide (q = EmptyString)); reflexivity.
  - destruct (decide (sid = EmptyString)); reflexivity.
Qed.

(** The falsy properties: missing, [null], [false], [0] and the empty
    string. *)
Lemma falsy_value_cases x :
  falsy_value x = true
  ↔ x = None ∨ x = Some Json.Null ∨ x = Some (Json.Boolean false)
    ∨ (∃ digits, x = Some (Json.Number true digits))
    ∨ x = Some (Json.Str EmptyString).
Proof.
  split.
  - destruct x as [v|]; [|by auto].
    destruct v as [|b|z d|str|items|fields]; simpl; try discriminate.
    + auto.
    + destruct b; [discriminate|auto].
    + destruct z; [eauto 6|discriminate].
    + destruct (decide (str = EmptyString)) as [->|]; [auto 6|discriminate].
  - intros [-> | [-> | [-> | [[d ->] | ->]]]]; reflexivity.
Qed.

Lemma chat_handler_json_cases E sid q w :
  if falsy_value sid || falsy_value q
  then chat_handler_json E sid q w = (Returned fields_required, w)
  else match Json.to_string (default Json.Null sid) with
       | Thrown e => chat_handler_json E sid q w = (Thrown e, w)
       | Returned key =>
           ∃ r, (chat_handler_json E sid q w).1 = Returned r
                ∧ (r = session_expired_or_invalid ∨ r = answer_failure
                   ∨ ∃ aiResponse, r = {| status := 200;
                                          body := JsonMessage aiResponse |})
       end.
Proof.
  unfold chat_handler_json.
  destruct (falsy_value sid || falsy_value q); [reflexivity|].
  unfold bind at 1, lift.
  destruct (Json.to_string (default Json.Null sid)) as [key|e]; [|reflexivity].
  unfold bind at 1, store_read. simpl.
  destruct (negb (truthy _)); [simpl; eauto|].
  unfold try_catch. unfold bind at 1.
  destruct (Json.to_string (default Json.Null q)) as [q'|e]; simpl; [|eauto].
  unfold bind.
  destruct (getFollowUpAIResponse E _ _ _) as [[a|e] w1]; simpl; eauto 7.
Qed.

(** X7. The handler of the chat route, on a parsed body whose [sessionId]
    and [question] are any JSON values or missing: when one of them is
    missing or falsy it answers the 400 for missing fields and does
    nothing else; otherwise, when the conversion of [sessionId] to a
    property key throws (an object that has a [toString] property of its
    own, for one), the handler throws that error without answering and
    without any effect; in every other case it answers, and only in three
    ways: the 404 for a missing session, the fixed 500, or 200 with an
    answer.  No text of an error thrown by Groq reaches the answer. *)
Theorem chat_route_answers E sid q w :
  if falsy_value sid || falsy_value q
  then chat_handler_json E sid q w = (Returned fields_required, w)
  else match Json.to_string (default Json.Null sid) with
       | Thrown e => chat_handler_json E sid q w = (Thrown e, w)
       | Returned key =>
           ∃ r, (chat_handler_json E sid q w).1 = Returned r
                ∧ (r = session_expired_or_invalid ∨ r = answer_failure
                   ∨ ∃ aiResponse, r = {| status := 200;
                                          body := JsonMessage aiResponse |})
       end.
Proof. apply chat_handler_json_cases. Qed.

(** The 400 of the chat route is given exactly to the follow-ups that lack
    the session id or the question, or carry an empty one. *)
Lemma chat_handler_fields_required_iff E req w :
  (chat_handler E req w).1 = Returned fields_required
  ↔ falsy (sessionId req) = true ∨ falsy (question req) = true.
Proof.
  unfold chat_handler. split.
  - destruct (falsy (sessionId req)); [by left|].
    destruct (falsy (question req)); [by right|]. simpl.
    unfold bind at 1, store_read. simpl.
    destruct (negb (truthy _)); [discriminate|].
    unfold try_catch, bind.
    destruct (getFollowUpAIResponse E _ _ _) as [[a|e] w1]; discriminate.
  - intros H.
    assert (falsy (sessionId req) || falsy (question req) = true) as ->.
    { apply orb_true_iff. done. }
    reflexivity.
Qed.

(** X8. The handler of the chat route, on a parsed body whose [sessionId]
    and [question] are any JSON values or missing, answers with the 400 for
    missing fields exactly when one of the two is missing, [null], [false],
    [0] or the empty string; it then reads nothing, sends nothing and
    changes nothing. *)
Theorem chat_route_rejects_incomplete E sid q w :
  ((chat_handler_json E sid q w).1 = Returned fields_required
   ↔ falsy_value sid = true ∨ falsy_value q = true)
  ∧ (∀ x, falsy_value x = true
          ↔ x = None ∨ x = Some Json.Null ∨ x = Some (Json.Boolean false)
            ∨ (∃ digits, x = Some (Json.Number true digits))
            ∨ x = Some (Json.Str EmptyString))
  ∧ (falsy_value sid = true ∨ falsy_value q = true →
     (chat_handler_json E sid q w).2 = w).
Proof.
  pose proof (chat_handler_json_cases E sid q w) as H.
  split; [|split; [apply falsy_value_cases|]].
  - split.
    + intros Heq.
      destruct (falsy_value sid); [by left|].
      destruct (falsy_value q); [by right|]. simpl in H.
      destruct (Json.to_string (default Json.Null sid)).
      * destruct H as (r & Hr & Hcases). rewrite Hr in Heq.
        injection Heq as ->.
        destruct Hcases as [?|[?|[? ?]]]; discriminate.
      * rewrite H in Heq. discriminate.
    + intros Hf.
      assert (falsy_value sid || falsy_value q = true) as Ho
        by (apply orb_true_iff; done).
      rewrite Ho in H. by rewrite H.
  - intros Hf.
    assert (falsy_value sid || falsy_value q = true) as Ho
      by (apply orb_true_iff; done).
    rewrite Ho in H. by rewrite H.
Qed.


End HandlerProperties.

(** * Properties of the chat area *)

Section ClientProperties.
Import Client.

Lemma or_default_nonempty x d : d ≠ EmptyString → or_default x d ≠ EmptyString.
Proof.
  intros Hd. unfold or_default. destruct x as [s|]; [|done].
  by destruct (decide (s = EmptyString)).
Qed.

Lemma is_blank_nonempty q : is_blank q = false → q ≠ EmptyString.
Proof. by intros H ->. Qed.

(** What an upload does to the world: one request, and at most a new
    session id. *)
Lemma uploadAndProcessFile_world E attachment w :
  (uploadAndProcessFile E attachment w).2
  = World (with_session (ui w)
             (session_after_upload
                (fetch E (PostUpload upload_url (FileAttachment.file attachment)))
                (currentDocSessionId (ui w))))
          (effects w ++ [Fetch (PostUpload upload_url (FileAttachment.file attachment))]).
Proof.
  destruct w as [[iv sf ip sc id] effs].
  unfold uploadAndProcessFile, try_catch, do_fetch, bind, emit, lift, ret, throw,
    with_session, upload_url. simpl.
  destruct (fetch E _) as [[okr [result|e]]|e]; simpl; try done;
    destruct okr; simpl; try done.
  unfold setCurrentDocSessionId, update.
  destruct (Session.falsy (sessionId result)); reflexivity.
Qed.

Lemma uploadAndProcessFile_returns E attachment w :
  ∃ v, (uploadAndProcessFile E attachment w).1 = Returned v.
Proof.
  unfold uploadAndProcessFile, try_catch, do_fetch, bind, emit, lift, ret, throw. simpl.
  destruct (fetch E _) as [[okr [result|e]]|e]; simpl; eauto;
    destruct okr; simpl; eauto.
  destruct (Session.falsy (sessionId result)); simpl; eauto.
Qed.

(** What a follow-up does to the world: the state is left alone, and one
    request is made when a session id is held. *)
Lemma handleFollowUpQuestion_world E question w :
  (handleFollowUpQuestion E question w).2
  = World (ui w)
      (effects w ++
       match currentDocSessionId (ui w) with
       | Some id =>
           if decide (id = EmptyString) then []
           else [Fetch (PostChat chat_url id question)]
       | None => []
       end).
Proof.
  destruct w as [c effs].
  unfold handleFollowUpQuestion, try_catch, do_fetch, bind, read, emit, lift, ret,
    throw, chat_url. simpl.
  destruct (currentDocSessionId c) as [id|]; simpl; [|by rewrite app_nil_r].
  destruct (decide (id = EmptyString)); simpl; [by rewrite app_nil_r|].
  destruct (fetch E _) as [[okr [result|e]]|e]; simpl; try done;
    destruct okr; simpl; done.
Qed.

Lemma handleFollowUpQuestion_returns E question w :
  ∃ v, (handleFollowUpQuestion E question w).1 = Returned v.
Proof.
  unfold handleFollowUpQuestion, try_catch, do_fetch, bind, read, emit, lift, ret,
    throw. simpl.
  destruct (Session.falsy _); simpl; eauto.
  destruct (fetch E _) as [[okr [result|e]]|e]; simpl; eauto;
    destruct okr; simpl; eauto.
Qed.

End ClientProperties.

Section SendProperties.
Import Client.

Lemma handleSendMessage_unblocked E w :
  send_blocked (ui w) = false →
  ∃ reply id,
    handleSendMessage E w
    = (Returned tt,
       World (State EmptyString [] false true id)
         (effects w
          ++ (if currentChat E then [] else [CreateNewChat])
          ++ [AddMessage (Some (user_message (ui w))) true]
          ++ match send_request (ui w) with
             | Some r => [Fetch r]
             | None => []
             end
          ++ [AddMessage reply false])).
Proof.
  destruct w as [[iv sf ip sc sid] effs]. unfold send_blocked. simpl. intros Hgo.
  unfold handleSendMessage, bind at 1, read. simpl.
  unfold bind at 1. simpl. unfold bind at 1. simpl. rewrite Hgo.
  unfold bind at 1, setIsProcessing, update. simpl.
  unfold bind at 1.
  set (created := if currentChat E then [] else [CreateNewChat]).
  assert ((if negb (currentChat E) then emit CreateNewChat else ret tt)
            (World (State iv sf true sc sid) effs)
          = (Returned tt, World (State iv sf true sc sid) (effs ++ created))) as ->.
  { unfold created. destruct (currentChat E); simpl.
    - unfold ret. by rewrite app_nil_r.
    - reflexivity. }
  unfold bind at 1, setShowChat, update. simpl.
  unfold bind at 1, emit. simpl.
  unfold bind at 1, setInputValue, update. simpl.
  unfold bind at 1, setSelectedFiles, update. simpl.
  unfold user_message, send_request. simpl.
  destruct sf as [|attachment rest].
  - unfold bind at 1.
    match goal with |- context [handleFollowUpQuestion E ?q ?w0] =>
      pose proof (handleFollowUpQuestion_world E q w0) as Hw;
      destruct (handleFollowUpQuestion_returns E q w0) as [v Hv];
      destruct (handleFollowUpQuestion E q w0) as [o w1]
    end. simpl in *. subst o w1.
    unfold bind, emit, setIsProcessing, update. simpl.
    exists v, sid. f_equal. f_equal. rewrite <- !app_assoc. simpl.
    f_equal. f_equal. f_equal.
    destruct sid as [id|]; [|done]. destruct (decide _); done.
  - unfold bind at 1. unfold bind at 1.
    match goal with |- context [uploadAndProcessFile E ?a ?w0] =>
      pose proof (uploadAndProcessFile_world E a w0) as Hw;
      destruct (uploadAndProcessFile_returns E a w0) as [v Hv];
      destruct (uploadAndProcessFile E a w0) as [o w1]
    end. simpl in *. subst o w1.
    unfold bind, emit, setIsProcessing, update, with_session. simpl.
    eexists (Some v), _. f_equal. f_equal. rewrite <- !app_assoc. simpl.
    reflexivity.
Qed.

Lemma handleSendMessage_blocked E w :
  send_blocked (ui w) = true → handleSendMessage E w = (Returned tt, w).
Proof.
  destruct w as [[iv sf ip sc sid] effs]. unfold send_blocked. simpl. intros Hb.
  unfold handleSendMessage, bind, read. simpl. by rewrite Hb.
Qed.

(** X10. A send that is not blocked shows the user's message, makes at most
    one request (the first staged file to the upload route, else the
    input to the chat route when a session id is held), shows exactly one
    reply, and leaves the input empty, no file staged and the processing
    flag down. *)
Theorem handleSendMessage_sends E w :
  send_blocked (ui w) = false →
  ∃ reply id,
    handleSendMessage E w
    = (Returned tt,
       World (State EmptyString [] false true id)
         (effects w
          ++ (if currentChat E then [] else [CreateNewChat])
          ++ [AddMessage (Some (user_message (ui w))) true]
          ++ match send_request (ui w) with
             | Some r => [Fetch r]
             | None => []
             end
          ++ [AddMessage reply false])).
Proof. apply handleSendMessage_unblocked. Qed.

(** X11. A send does nothing at all exactly when it is blocked: the input is
    blank and no file is staged, or a send is under way. *)
Theorem handleSendMessage_blocked_iff E w :
  handleSendMessage E w = (Returned tt, w) ↔ send_blocked (ui w) = true.
Proof.
  split.
  - intros Hsame. destruct (send_blocked (ui w)) eqn:Hb; [done|].
    destruct (handleSendMessage_unblocked E w Hb) as (reply & id & Heq).
    rewrite Heq in Hsame. injection Hsame as Hw.
    apply (f_equal effects) in Hw. simpl in Hw.
    apply (f_equal length) in Hw. rewrite !length_app in Hw. simpl in Hw. lia.
  - apply handleSendMessage_blocked.
Qed.


End SendProperties.

(** * The chat area and the server together *)

Section EndToEnd.
Import Session Client.

Lemma getFollowUpAIResponse_outcome E t q w :
  (getFollowUpAIResponse E (JString t) q w).1 = followup_outcome E t q.
Proof.
  unfold followup_outcome, getFollowUpAIResponse, bind, Session.emit, lift, ret. simpl.
  destruct (groq_create E _) as [c|e]; simpl; [|done].
  destruct (first_choice_content c); reflexivity.
Qed.

Lemma analysis_outcome_nonempty E t a :
  analysis_outcome E t = Returned a → a ≠ EmptyString.
Proof.
  unfold analysis_outcome, getInitialAIAnalysis, bind, Session.emit, lift, ret. simpl.
  destruct (groq_create E _) as [c|e]; simpl; [|done].
  destruct (first_choice_content c) as [x|e]; simpl; [|done].
  intros [= <-]. by apply or_default_nonempty.
Qed.

(** The answer of the chat route for a stored, non-empty text. *)
Lemma chat_handler_live_response E sid q t s :
  sid ≠ EmptyString → q ≠ EmptyString → t ≠ EmptyString →
  documentContextStore s !! sid = Some t →
  (serve (chat_handler E (follow_up sid q)) s).1
  = Returned match followup_outcome E t q with
             | Returned a => {| status := 200; body := JsonMessage a |}
             | Thrown _ => answer_failure
             end.
Proof.
  intros Hs Hq Ht Hst. unfold serve, chat_handler, follow_up, falsy. simpl.
  rewrite !decide_False by done. simpl.
  unfold bind at 1, store_read. simpl. rewrite (js_get_own _ _ _ Hst).
  simpl. rewrite decide_False by done. simpl.
  unfold try_catch, bind.
  match goal with |- context [getFollowUpAIResponse E ?v ?q ?w0] =>
    pose proof (getFollowUpAIResponse_outcome E t q w0) as Ho;
    destruct (getFollowUpAIResponse E v q w0) as [[a|e] w1]
  end; simpl in *; by rewrite <- Ho.
Qed.

(** What a follow-up gives when the server, in state [s], finds the
    session. *)
Lemma follow_up_found E Es s c effs sid q t :
  fetch E = served Es s →
  currentDocSessionId c = Some sid →
  sid ≠ EmptyString → q ≠ EmptyString → t ≠ EmptyString →
  documentContextStore s !! sid = Some t →
  handleFollowUpQuestion E q (Client.World c effs)
  = (Returned (Some match followup_outcome Es t q with
                    | Returned a => a
                    | Thrown _ => "Error getting answer: Failed to get a response from the AI."
                    end),
     Client.World c (effs ++ [Fetch (PostChat chat_url sid q)])).
Proof.
  intros HE Hid Hs Hq Ht Hst.
  unfold handleFollowUpQuestion, bind at 1, read. simpl. rewrite Hid. simpl.
  rewrite decide_False by done.
  unfold try_catch, do_fetch, bind, Client.emit, lift, ret, throw. simpl.
  rewrite HE. unfold served. rewrite decide_True by done.
  pose proof (chat_handler_live_response Es sid q t s Hs Hq Ht Hst) as Hr.
  unfold follow_up in Hr. rewrite Hr. unfold chat_url.
  destruct (followup_outcome Es t q) as [a|e]; reflexivity.
Qed.

(** What a follow-up gives when the server, in state [s], does not find
    the session. *)
Lemma follow_up_missed E Es s c effs sid q :
  fetch E = served Es s →
  currentDocSessionId c = Some sid →
  sid ≠ EmptyString → q ≠ EmptyString →
  lookup s sid = JUndefined →
  handleFollowUpQuestion E q (Client.World c effs)
  = (Returned (Some "Error getting answer: Your document session has expired or is invalid. Please upload the document again."),
     Client.World c (effs ++ [Fetch (PostChat chat_url sid q)])).
Proof.
  intros HE Hid Hs Hq Hl.
  unfold handleFollowUpQuestion, bind at 1, read. simpl. rewrite Hid. simpl.
  rewrite decide_False by done.
  unfold try_catch, do_fetch, bind, Client.emit, lift, ret, throw. simpl.
  rewrite HE. unfold served. rewrite decide_True by done.
  pose proof (chat_handler_miss Es sid q s Hs Hq Hl) as Hr.
  unfold follow_up in Hr. rewrite Hr. reflexivity.
Qed.

(** X13. An upload through the chat area that pdf-parse and the analysis
    both let through shows the summary, makes the chat area hold the
    identifier the server drew, and leaves the text stored under that
    identifier on the server. *)
Theorem client_upload_establishes_session E Es s attachment c effs data aiSummary :
  fetch E = served Es s →
  pdf Es (File.bytes (FileAttachment.file attachment)) = Returned data →
  analysis_outcome Es (text data) = Returned aiSummary →
  is_uuid_v4 (uuidv4 Es) = true →
  uploadAndProcessFile E attachment (Client.World c effs)
  = (Returned aiSummary,
     Client.World (with_session c (Some (uuidv4 Es)))
       (effs ++ [Fetch (PostUpload upload_url (FileAttachment.file attachment))]))
  ∧ lookup (step s (arrival Es (PostUpload upload_url (FileAttachment.file attachment))))
      (uuidv4 Es)
    = JString (text data).
Proof.
  intros HE Hp Ha Hu.
  set (req := {| Session.file := Some (File.bytes (FileAttachment.file attachment)) |}).
  assert (Session.file req = Some (File.bytes (FileAttachment.file attachment)))
    as Hf by reflexivity.
  split.
  - pose proof (upload_handler_parsed_response Es req _ data (Session.World s []) Hf Hp)
      as Hr. unfold req in Hr.
    rewrite Ha in Hr.
    unfold uploadAndProcessFile, try_catch, do_fetch, bind, Client.emit, lift, ret,
      throw. simpl.
    rewrite HE. unfold served. rewrite decide_True by done.
    unfold serve. rewrite Hr. simpl.
    rewrite decide_False by (by apply is_uuid_v4_nonempty).
    unfold setCurrentDocSessionId, update, with_session, upload_url. simpl.
    rewrite decide_False by (by eapply analysis_outcome_nonempty). reflexivity.
  - pose proof (step_upload_parsed Es req _ data s Hf Hp) as Hs. unfold req in Hs.
    unfold arrival. rewrite Hs. apply session_created_lookup. by apply is_uuid_v4_not_proto.
Qed.

(** X14. After such an upload, a question sent through the chat area is
    answered from the uploaded text as long as less than thirty minutes
    have passed on the server, and by the request to upload again from
    then on; either way the chat area keeps the identifier it holds. *)
Theorem client_follow_up_lifecycle E Es Es' s evs attachment c effs data q :
  reachable s →
  pdf Es (File.bytes (FileAttachment.file attachment)) = Returned data →
  text data ≠ EmptyString →
  is_uuid_v4 (uuidv4 Es) = true →
  uuidv4 Es ∉ (timers s).*2 →
  never_redrawn (uuidv4 Es) evs →
  currentDocSessionId c = Some (uuidv4 Es) →
  q ≠ EmptyString →
  fetch E
  = served Es'
      (run evs (step s (arrival Es (PostUpload upload_url (FileAttachment.file attachment))))) →
  (now (run evs (step s (arrival Es (PostUpload upload_url (FileAttachment.file attachment)))))
   < now s + TTL →
   handleFollowUpQuestion E q (Client.World c effs)
   = (Returned (Some match followup_outcome Es' (text data) q with
                     | Returned a => a
                     | Thrown _ => "Error getting answer: Failed to get a response from the AI."
                     end),
      Client.World c (effs ++ [Fetch (PostChat chat_url (uuidv4 Es) q)])))
  ∧ (now s + TTL
     ≤ now (run evs (step s (arrival Es (PostUpload upload_url (FileAttachment.file attachment))))) →
     handleFollowUpQuestion E q (Client.World c effs)
     = (Returned (Some "Error getting answer: Your document session has expired or is invalid. Please upload the document again."),
        Client.World c (effs ++ [Fetch (PostChat chat_url (uuidv4 Es) q)]))).
Proof.
  intros Hr Hp Ht Hu Hfresh Hevs Hid Hq HE. unfold arrival in *.
  pose (req := {| Session.file := Some (File.bytes (FileAttachment.file attachment)) |}).
  assert (Session.file req = Some (File.bytes (FileAttachment.file attachment)))
    as Hf by reflexivity.
  pose proof (step_upload_parsed Es req _ data s Hf Hp) as Hs. unfold req in Hs.
  rewrite Hs in *. clear Hs Hf req.
  pose proof (is_uuid_v4_nonempty _ Hu) as Hne.
  split; intros Hnow.
  - apply (follow_up_found E Es' _ c effs _ q (text data) HE Hid Hne Hq Ht).
    apply (session_live_run (uuidv4 Es) (text data) (now s + TTL)); [done|done|].
    split.
    + simpl. apply js_set_lookup. by apply is_uuid_v4_not_proto.
    + intros d [Hin|Hin]%elem_of_app.
      * exfalso. apply Hfresh. apply list_elem_of_fmap. by exists (d, uuidv4 Es).
      * apply list_elem_of_singleton in Hin. injection Hin as ->. lia.
  - apply (follow_up_missed E Es' _ c effs _ q HE Hid Hne Hq).
    apply created_then_expired; [|by apply is_uuid_v4_not_inherited|done|done].
    by apply reachable_timers_pending.
Qed.

(** X15. When the server answers an upload with an error, the chat area
    shows that error after the words Error processing file, and keeps the
    session id it had: later questions go to the document uploaded
    before. *)
Theorem failed_upload_keeps_previous_session E Es s attachment c effs r :
  fetch E = served Es s →
  (serve (upload_handler Es {| Session.file := Some (File.bytes (FileAttachment.file attachment)) |}) s).1
  = Returned r →
  Session.status r ≠ 200 →
  ∃ msg,
    Session.body r = JsonError msg
    ∧ uploadAndProcessFile E attachment (Client.World c effs)
      = (Returned ("Error processing file: " +:+ msg),
         Client.World c
           (effs ++ [Fetch (PostUpload upload_url (FileAttachment.file attachment))])).
Proof.
  intros HE Hr Hst.
  destruct (upload_handler_cases Es
              {| Session.file := Some (File.bytes (FileAttachment.file attachment)) |}
              (Session.World s [])) as (r' & Hr' & Hcases).
  unfold serve in Hr. rewrite Hr in Hr'. injection Hr' as <-.
  assert (∃ msg, r = {| status := Session.status r; body := JsonError msg |}
                 ∧ msg ≠ EmptyString ∧ Session.status r ≠ 200
                 ∧ ((200 <=? Session.status r) && (Session.status r <? 300)) = false)
    as (msg & Hrm & Hmsg & _ & Hok).
  { destruct Hcases as [->|[->|[->|[a ->]]]]; simpl in *; try done;
      eexists; (split; [reflexivity|]); done. }
  exists msg. split; [by rewrite Hrm|].
  unfold uploadAndProcessFile, try_catch, do_fetch, bind, Client.emit, lift, ret,
    throw. simpl.
  rewrite HE. unfold served. rewrite decide_True by done.
  unfold serve. rewrite Hr. rewrite Hrm. unfold wire_outcome, wire. simpl.
  rewrite Hok. simpl. rewrite decide_False by done. destruct c. reflexivity.
Qed.

(** X16. The chat area never sends a follow-up that the chat route would
    reject for missing fields: the question it sends is not blank and the
    session id is not empty. *)
Theorem client_follow_up_is_complete c sid q Es w :
  send_blocked c = false →
  send_request c = Some (PostChat chat_url sid q) →
  is_blank q = false ∧ sid ≠ EmptyString
  ∧ (chat_handler Es {| Session.sessionId := Some sid; Session.question := Some q |} w).1
    ≠ Returned fields_required.
Proof.
  unfold send_blocked, send_request. intros Hgo Hreq.
  destruct (selectedFiles c) as [|a l] eqn:Hf; [|discriminate].
  destruct (currentDocSessionId c) as [id|]; [|discriminate].
  destruct (decide (id = EmptyString)) as [|Hid]; [discriminate|].
  injection Hreq as Hsid Hq. subst sid q. simpl in Hgo.
  apply orb_false_iff in Hgo as [Hb _]. rewrite andb_true_r in Hb.
  split; [done|]. split; [done|].
  intros [H|H]%chat_handler_fields_required_iff; simpl in H.
  - by rewrite decide_False in H.
  - rewrite decide_False in H; [done|]. by apply is_blank_nonempty.
Qed.

End EndToEnd.

(** * Staging files and clearing the chat *)

Section Staging.
Import Client.

Lemma attach_all_world E files w :
  ∃ l, attach_all E files w
       = (Returned l, World (ui w) (effects w ++ map CreateObjectURL files))
       ∧ length l = length files
       ∧ (∀ f rest, files = f :: rest →
            ∃ l', l = FileAttachment.mk
                        (File.name f +:+ "-" +:+ pretty (File.lastModified f))
                        (File.name f) (File.type f) (File.size f) f
                        (createObjectURL E f) :: l').
Proof.
  revert w. induction files as [|f rest IH]; intros w.
  - exists []. simpl. unfold ret. rewrite app_nil_r. destruct w. done.
  - cbn [attach_all]. unfold bind at 1, attach, bind, emit, ret. simpl.
    destruct (IH (World (ui w) (effects w ++ [CreateObjectURL f])))
      as (l & Heq & Hlen & _).
    rewrite Heq. simpl. eexists. split; [|split].
    + rewrite <- app_assoc. reflexivity.
    + simpl. by rewrite Hlen.
    + intros f' rest' [= <- <-]. eauto.
Qed.

(** X17. A drop stages the first accepted file and nothing else, in place
    of what was staged, after an object URL has been made for every
    accepted file; removing the staged file by its id leaves no file
    staged. *)
Theorem drop_stages_one_file E files w :
  effects (onDrop E files w).2 = effects w ++ map CreateObjectURL files
  ∧ match files with
    | [] => selectedFiles (ui (onDrop E files w).2) = []
    | f :: _ =>
        ∃ a, selectedFiles (ui (onDrop E files w).2) = [a]
             ∧ FileAttachment.file a = f
             ∧ FileAttachment.id a
               = File.name f +:+ "-" +:+ pretty (File.lastModified f)
             ∧ selectedFiles
                 (ui (onRemoveFile (FileAttachment.id a) (onDrop E files w).2).2)
               = []
    end.
Proof.
  destruct (attach_all_world E files w) as (l & Heq & Hlen & Hhd).
  assert (onDrop E files w
          = (Returned tt,
             World (State (inputValue (ui w)) (take 1 l) (isProcessing (ui w))
                      (showChat (ui w)) (currentDocSessionId (ui w)))
                   (effects w ++ map CreateObjectURL files))) as ->.
  { unfold onDrop, bind. rewrite Heq. reflexivity. }
  simpl. split; [done|].
  destruct files as [|f rest].
  - by destruct l.
  - destruct (Hhd f rest eq_refl) as (l' & ->). simpl.
    eexists. split; [reflexivity|]. simpl. split; [done|]. split; [done|].
    by rewrite String.eqb_refl.
Qed.

(** X18. Clearing the chat forgets the session without telling the server:
    no request is made, and the next question is answered on the spot by
    the request to upload the document again. *)
Theorem cleared_chat_asks_for_upload E w q :
  effects (handleClearChat w).2 = effects w ++ [ClearAllChats]
  ∧ handleFollowUpQuestion E q (handleClearChat w).2
    = (Returned (Some "Document context lost. Please upload the document again."),
       (handleClearChat w).2).
Proof.
  unfold handleClearChat, handleFollowUpQuestion, bind, emit, read,
    setCurrentDocSessionId, setShowChat, update, ret. simpl. done.
Qed.

End Staging.

(** * Properties of the routes of the translation revision *)

Section RouteProperties.
Import Multilingual.
Context (E : env).

(** Translating into English is the identity, and sends nothing. *)
Lemma translateText_into_english text source w :
  translateText E text (Code "en-IN") source w = (Returned text, w).
Proof. unfold translateText, try_catch. by rewrite decide_True. Qed.

(** What [translateText] does for another target. *)
Lemma translateText_sends text target source w :
  target ≠ Code "en-IN" →
  ∃ v, translateText E text target source w
       = (Returned v,
          w ++ [AxiosTranslate (Translation.SARVAM_BASE_URL +:+ "/translate")
                  {| input := text; source_language_code := source;
                     target_language_code := target; speaker_gender := "Male" |}
                  ("Bearer " +:+ SARVAM_API_KEY E)])
       ∧ (translation_failed
            (sarvam_translate E
               {| input := text; source_language_code := source;
                  target_language_code := target; speaker_gender := "Male" |}) →
          v = text).
Proof.
  intros Hne. unfold translateText, try_catch, bind, emit, lift, ret, throw.
  rewrite decide_False by done. simpl.
  destruct (sarvam_translate E _) as [[d|]|e]; simpl; eexists; (split; [reflexivity|]);
    try done.
  intros [Hd|Hd]; rewrite Hd; reflexivity.
Qed.

(** In every case: a text comes back, and at most one request went out, a
    translation request. *)
Lemma translateText_cases text target source w :
  ∃ v rest, translateText E text target source w = (Returned v, w ++ rest)
            ∧ (length rest ≤ 1)%nat ∧ forallb is_translation rest = true
            ∧ (target = Code "en-IN" ∨ translation_unavailable E → v = text)
            ∧ (target = Code "en-IN" → rest = []).
Proof.
  destruct (decide (target = Code "en-IN")) as [->|Hne].
  - exists text, []. rewrite translateText_into_english, app_nil_r. simpl. auto.
  - destruct (translateText_sends text target source w Hne) as (v & Heq & Hfail).
    eexists v, _. split; [exact Heq|]. simpl. split; [lia|]. split; [done|].
    split; [|done]. intros [?|Hdown]; [done|]. apply Hfail, Hdown.
Qed.

(** A text that is not empty is not translated into the empty text. *)
Lemma translateText_nonempty text target source w v :
  text ≠ EmptyString →
  (translateText E text target source w).1 = Returned v → v ≠ EmptyString.
Proof.
  intros Ht. unfold translateText, try_catch, bind, emit, lift, ret, throw.
  destruct (decide (target = Code "en-IN")); simpl; [congruence|].
  destruct (sarvam_translate E _) as [[d|]|e]; simpl; try congruence.
  intros [= <-]. unfold or_default.
  destruct (Translation.translated_text d) as [s|]; [|done].
  by destruct (decide (s = EmptyString)).
Qed.

(** For string codes it returns what the function of [Translation]
    returns. *)
Lemma translateText_agrees text target source w w' :
  (translateText E text (Code target) (Code source) w).1
  = (Translation.translateText (services E) text target source w').1.
Proof.
  unfold translateText, Translation.translateText, try_catch, bind, emit,
    Translation.emit, lift, ret, throw.
  destruct (decide (target = "en-IN")) as [->|Hne].
  - by rewrite decide_True.
  - rewrite decide_False by congruence. simpl.
    destruct (sarvam_translate E _) as [[d|]|e]; reflexivity.
Qed.

(** The loop over the history translates nothing: roles, contents and
    order are kept, and no request is made. *)
Lemma translate_history_identity target chatHistory w :
  translate_history E target chatHistory w
  = (Returned (map history_message chatHistory), w).
Proof.
  revert w. induction chatHistory as [|chat rest IH]; intros w; [done|].
  cbn [translate_history map]. unfold bind at 1.
  rewrite translateText_into_english. unfold bind at 1. rewrite IH. reflexivity.
Qed.

(** The two providers always give an answer. *)
Lemma provider_answer_returns messages :
  ∃ a, (provider_answer E messages).1 = Returned a.
Proof.
  unfold provider_answer, Translation.getSarvamChatResponse, Translation.getGroqAnalysis,
    try_catch, bind, Translation.emit, lift, ret, throw. simpl.
  destruct (sarvam_chat E messages) as [[c|]|e]; simpl.
  - destruct (first_choice_content c) as [x|e]; simpl; [eauto|].
    destruct (groq_create E messages) as [c'|e']; simpl; [|eauto].
    destruct (first_choice_content c'); simpl; eauto.
  - destruct (groq_create E messages) as [c'|e']; simpl; [|eauto].
    destruct (first_choice_content c'); simpl; eauto.
  - destruct (groq_create E messages) as [c'|e']; simpl; [|eauto].
    destruct (first_choice_content c'); simpl; eauto.
Qed.

(** And the answer is never the empty text. *)
Lemma provider_answer_nonempty messages a :
  (provider_answer E messages).1 = Returned a → a ≠ EmptyString.
Proof.
  unfold provider_answer, Translation.getSarvamChatResponse, Translation.getGroqAnalysis,
    try_catch, bind, Translation.emit, lift, ret, throw. simpl.
  assert (∀ x d, d ≠ EmptyString → or_default x d ≠ EmptyString) as Hd.
  { intros x d Hne. unfold or_default. destruct x as [s|]; [|done].
    by destruct (decide (s = EmptyString)). }
  destruct (sarvam_chat E messages) as [[c|]|e]; simpl;
    [destruct (first_choice_content c) as [x|e]; simpl;
       [intros [= <-]; by apply Hd|]| |];
    (destruct (groq_create E messages) as [c'|e']; simpl;
       [destruct (first_choice_content c'); simpl|]);
    intros [= <-]; (by apply Hd) || done.
Qed.

Lemma getSarvamChatResponse_via messages w :
  getSarvamChatResponse E messages w
  = ((provider_answer E messages).1, w ++ map Service (provider_answer E messages).2).
Proof.
  unfold getSarvamChatResponse, via, provider_answer.
  by destruct (Translation.getSarvamChatResponse _ _ _).
Qed.

(** The chat route, for a message that is not blank. *)
Lemma chat_handler_accepted req message w :
  ChatReq.message req = Some message → is_blank message = false →
  ∃ aiResponse translated rest,
    (provider_answer E
       (chat_messages (default [] (ChatReq.chatHistory req)) message)).1
    = Returned aiResponse
    ∧ chat_handler E req w
      = (Returned {| status := 200;
                     body := JsonChat translated
                               (default "English" (ChatReq.language req))
                               message message aiResponse |},
         (w ++ map Service
                 (provider_answer E
                    (chat_messages (default [] (ChatReq.chatHistory req)) message)).2)
         ++ rest)
    ∧ forallb is_translation rest = true
    ∧ (language_code (default "English" (ChatReq.language req)) = Code "en-IN"
       ∨ translation_unavailable E → translated = aiResponse)
    ∧ (language_code (default "English" (ChatReq.language req)) = Code "en-IN" →
       rest = []).
Proof.
  intros Hm Hb. unfold chat_handler, missing_or_blank. rewrite Hm, Hb. simpl.
  unfold try_catch, bind at 1. rewrite translateText_into_english.
  unfold bind at 1. rewrite translate_history_identity.
  unfold bind at 1. rewrite getSarvamChatResponse_via.
  fold (chat_messages (default [] (ChatReq.chatHistory req)) message).
  destruct (provider_answer_returns
              (chat_messages (default [] (ChatReq.chatHistory req)) message))
    as [a Ha].
  rewrite Ha. unfold bind.
  match goal with |- context [translateText E a ?t ?s ?w0] =>
    destruct (translateText_cases a t s w0) as (v & rest & Heq & _ & Htr & Hv & Hrest)
  end.
  rewrite Heq. simpl. exists a, v, rest. auto.
Qed.

End RouteProperties.

(** Awaiting an answer that has come. *)
Lemma bind_lift_returned {W A B} (a : A) (k : A → M W B) (w : W) :
  bind (lift (Returned a)) k w = k a w.
Proof. reflexivity. Qed.

Section RouteTheorems.
Import Multilingual.
Context (E : env).

(** The chat route, for a missing or blank message. *)
Lemma chat_handler_refused req w :
  missing_or_blank (ChatReq.message req) = true →
  ∃ msg rest,
    chat_handler E req w = (Returned {| status := 400; body := JsonError msg |}, w ++ rest)
    ∧ forallb is_translation rest = true
    ∧ (language_code (default "English" (ChatReq.language req)) = Code "en-IN"
       ∨ translation_unavailable E → msg = "No message provided.").
Proof.
  intros Hb. unfold chat_handler. rewrite Hb. unfold bind.
  match goal with |- context [translateText E ?a ?t ?s ?w0] =>
    destruct (translateText_cases E a t s w0) as (v & rest & Heq & _ & Htr & Hv & _)
  end.
  rewrite Heq. simpl. exists v, rest. auto.
Qed.

(** X19. The chat route forwards what the user typed as it is: whatever the
    language, the answering service is sent the system prompt, the history
    with its roles, contents and order, and the message, none of them
    translated; no request precedes that one, and the answer is 200 with
    the message repeated as its own translation. *)
Theorem chat_route_forwards_untranslated req message w :
  ChatReq.message req = Some message → is_blank message = false →
  ∃ aiResponse translated rest,
    (provider_answer E
       (chat_messages (default [] (ChatReq.chatHistory req)) message)).1
    = Returned aiResponse
    ∧ chat_handler E req w
      = (Returned {| status := 200;
                     body := JsonChat translated
                               (default "English" (ChatReq.language req))
                               message message aiResponse |},
         (w ++ map Service
                 (provider_answer E
                    (chat_messages (default [] (ChatReq.chatHistory req)) message)).2)
         ++ rest)
    ∧ forallb is_translation rest = true.
Proof.
  intros Hm Hb.
  destruct (chat_handler_accepted E req message w Hm Hb)
    as (a & t & rest & Ha & Heq & Htr & _).
  by exists a, t, rest.
Qed.

(** X20. For English, for a missing language and for a language that is
    neither supported nor the name of a member of [Object.prototype], the
    chat route sends no translation request at all, and the message of the
    answer is what the providers said. *)
Theorem chat_route_in_english req message w :
  ChatReq.message req = Some message → is_blank message = false →
  language_code (default "English" (ChatReq.language req)) = Code "en-IN" →
  ∃ aiResponse,
    (provider_answer E
       (chat_messages (default [] (ChatReq.chatHistory req)) message)).1
    = Returned aiResponse
    ∧ chat_handler E req w
      = (Returned {| status := 200;
                     body := JsonChat aiResponse
                               (default "English" (ChatReq.language req))
                               message message aiResponse |},
         w ++ map Service
                (provider_answer E
                   (chat_messages (default [] (ChatReq.chatHistory req)) message)).2).
Proof.
  intros Hm Hb Hen.
  destruct (chat_handler_accepted E req message w Hm Hb)
    as (a & t & rest & Ha & Heq & _ & Ht & Hrest).
  exists a. split; [done|]. rewrite Heq, (Ht (or_introl Hen)), (Hrest Hen).
  by rewrite app_nil_r.
Qed.


(** X22. When the translation service and both providers are down, the chat
    route still answers 200, in every language, with the fixed sentence of
    apology as its message. *)
Theorem chat_route_survives_outage req message w :
  ChatReq.message req = Some message → is_blank message = false →
  translation_unavailable E →
  primary_failed
    (sarvam_chat E (chat_messages (default [] (ChatReq.chatHistory req)) message)) →
  secondary_failed
    (groq_create E (chat_messages (default [] (ChatReq.chatHistory req)) message)) →
  (chat_handler E req w).1
  = Returned {| status := 200;
                body := JsonChat apology (default "English" (ChatReq.language req))
                          message message apology |}.
Proof.
  intros Hm Hb Hdown H1 H2.
  destruct (chat_handler_accepted E req message w Hm Hb)
    as (a & t & rest & Ha & Heq & _ & Ht & _).
  rewrite Heq. simpl. rewrite (Ht (or_intror Hdown)).
  assert (a = apology) as ->; [|done].
  unfold provider_answer in Ha.
  rewrite (getSarvamChatResponse_falls_back (services E) _ [] H1) in Ha.
  unfold Translation.getGroqAnalysis, try_catch, bind, Translation.emit, lift, ret in Ha.
  simpl in Ha.
  destruct (groq_create E _) as [c|e]; simpl in *.
  - unfold first_choice_content in Ha. rewrite H2 in Ha. simpl in Ha.
    injection Ha as <-. reflexivity.
  - injection Ha as <-. reflexivity.
Qed.

(** The upload route, once pdf-parse has returned. *)
Lemma upload_handler_parsed_multilingual req file data w :
  UploadReq.file req = Some file →
  pdf E (UploadedFile.buffer file) = Returned data →
  ∃ aiSummary translated rest,
    (provider_answer E
       (upload_messages (Session.text data)
          (default EmptyString (UploadReq.userQuestion req)))).1
    = Returned aiSummary
    ∧ upload_handler E req w
      = (Returned
           {| status := 200;
              body := JsonUpload translated (Session.numpages data)
                        (UploadedFile.originalname file)
                        (default "English" (UploadReq.language req))
                        (default EmptyString (UploadReq.userQuestion req))
                        (if is_blank (default EmptyString (UploadReq.userQuestion req))
                         then EmptyString
                         else default EmptyString (UploadReq.userQuestion req)) |},
         ((w ++ [PdfParse (UploadedFile.buffer file)])
          ++ map Service
               (provider_answer E
                  (upload_messages (Session.text data)
                     (default EmptyString (UploadReq.userQuestion req)))).2)
         ++ rest)
    ∧ forallb is_translation rest = true
    ∧ (language_code (default "English" (UploadReq.language req)) = Code "en-IN"
       ∨ translation_unavailable E → translated = aiSummary)
    ∧ translated ≠ EmptyString.
Proof.
  intros Hf Hp. unfold upload_handler. rewrite Hf.
  unfold try_catch, bind at 1, emit. simpl.
  unfold bind at 1, lift. rewrite Hp.
  set (q := default EmptyString (UploadReq.userQuestion req)).
  unfold bind at 1.
  assert ((if negb (is_blank q)
           then translateText E q (Code "en-IN")
                  (language_code (default "English" (UploadReq.language req)))
           else ret EmptyString) (w ++ [PdfParse (UploadedFile.buffer file)])
          = (Returned (if is_blank q then EmptyString else q),
             w ++ [PdfParse (UploadedFile.buffer file)])) as ->.
  { destruct (is_blank q); simpl; [done|]. apply translateText_into_english. }
  assert ((if decide ((if is_blank q then EmptyString else q) = EmptyString)
           then EmptyString
           else lf +:+ lf +:+ "Additional question from user: "
                +:+ (if is_blank q then EmptyString else q))
          = (if is_blank q then EmptyString
             else lf +:+ lf +:+ "Additional question from user: " +:+ q)) as ->.
  { destruct (is_blank q) eqn:Hb.
    - by rewrite decide_True.
    - rewrite decide_False; [done|]. by apply is_blank_nonempty. }
  fold (upload_messages (Session.text data) q).
  unfold bind at 1. rewrite getSarvamChatResponse_via.
  destruct (provider_answer_returns E (upload_messages (Session.text data) q))
    as [a Ha].
  rewrite Ha. unfold bind.
  match goal with |- context [translateText E a ?t ?s ?w0] =>
    destruct (translateText_cases E a t s w0) as (v & rest & Heq & _ & Htr & Hv & _);
    pose proof (translateText_nonempty E a t s w0 v
                  (provider_answer_nonempty E _ a Ha)) as Hne
  end.
  rewrite Heq in Hne |- *. simpl. exists a, v, rest. auto 6.
Qed.

(** X23. The upload route forwards the question as typed: once pdf-parse has
    returned, the answer is 200; the providers get the prompt built from
    the extracted text, followed by the question when it is not blank;
    and the answer repeats the question as its own translation. *)
Theorem upload_route_forwards_question req file data w :
  UploadReq.file req = Some file →
  pdf E (UploadedFile.buffer file) = Returned data →
  ∃ aiSummary translated rest,
    (provider_answer E
       (upload_messages (Session.text data)
          (default EmptyString (UploadReq.userQuestion req)))).1
    = Returned aiSummary
    ∧ upload_handler E req w
      = (Returned
           {| status := 200;
              body := JsonUpload translated (Session.numpages data)
                        (UploadedFile.originalname file)
                        (default "English" (UploadReq.language req))
                        (default EmptyString (UploadReq.userQuestion req))
                        (if is_blank (default EmptyString (UploadReq.userQuestion req))
                         then EmptyString
                         else default EmptyString (UploadReq.userQuestion req)) |},
         ((w ++ [PdfParse (UploadedFile.buffer file)])
          ++ map Service
               (provider_answer E
                  (upload_messages (Session.text data)
                     (default EmptyString (UploadReq.userQuestion req)))).2)
         ++ rest)
    ∧ forallb is_translation rest = true
    ∧ (language_code (default "English" (UploadReq.language req)) = Code "en-IN"
       ∨ translation_unavailable E → translated = aiSummary).
Proof.
  intros Hf Hp.
  destruct (upload_handler_parsed_multilingual req file data w Hf Hp)
    as (a & t & rest & Ha & Heq & Htr & Ht & _).
  by exists a, t, rest.
Qed.


(** What [!x || !x.trim()] makes of a property of a parsed body: it lets a
    string through that is not blank, refuses what is missing, falsy or
    blank, and throws on every other value. *)
Lemma missing_or_blank_value_cases name x :
  (missing_or_blank_value name x = Returned false
   ↔ ∃ s, x = Some (Json.Str s) ∧ is_blank s = false)
  ∧ (missing_or_blank_value name x = Returned true
     ↔ x = None ∨ (∃ v, x = Some v ∧ Json.truthy v = false)
       ∨ ∃ s, x = Some (Json.Str s) ∧ is_blank s = true)
  ∧ ((∃ e, missing_or_blank_value name x = Thrown e)
     ↔ ∃ v, x = Some v ∧ Json.truthy v = true ∧ ∀ s, v ≠ Json.Str s).
Proof.
  assert (is_blank EmptyString = true) as Hblank by reflexivity.
  destruct x as [v|]; simpl.
  2:{ split; [|split].
      - split; [discriminate|]. intros (s & ? & _). discriminate.
      - split; [by left|done].
      - split; [intros (e & ?); discriminate|]. intros (v & ? & _). discriminate. }
  destruct v as [|b|z d|str|items|fields]; simpl.
  - split; [|split].
    + split; [discriminate|]. intros (s & ? & _). discriminate.
    + split; [|done]. intros _. right; left. by eexists.
    + split; [intros (e & ?); discriminate|]. intros (v & [= <-] & ? & _). discriminate.
  - destruct b; simpl; (split; [|split]).
    + split; [discriminate|]. intros (s & ? & _). discriminate.
    + split; [discriminate|].
      intros [?|[(v & [= <-] & ?)|(s & ? & _)]]; discriminate.
    + split; [|by eauto]. intros _. eexists. split; [done|]. split; [done|]. discriminate.
    + split; [discriminate|]. intros (s & ? & _). discriminate.
    + split; [|done]. intros _. right; left. by eexists.
    + split; [intros (e & ?); discriminate|]. intros (v & [= <-] & ? & _). discriminate.
  - destruct z; simpl; (split; [|split]).
    + split; [discriminate|]. intros (s & ? & _). discriminate.
    + split; [|done]. intros _. right; left. by eexists.
    + split; [intros (e & ?); discriminate|]. intros (v & [= <-] & ? & _). discriminate.
    + split; [discriminate|]. intros (s & ? & _). discriminate.
    + split; [discriminate|].
      intros [?|[(v & [= <-] & ?)|(s & ? & _)]]; discriminate.
    + split; [|by eauto]. intros _. eexists. split; [done|]. split; [done|]. discriminate.
  - destruct (decide (str = EmptyString)) as [->|Hne]; simpl; (split; [|split]).
    + split; [discriminate|]. intros (s & [= <-] & ?). congruence.
    + split; [|done]. intros _. right; right. by exists EmptyString.
    + split; [intros (e & ?); discriminate|]. intros (v & [= <-] & ? & _). discriminate.
    + split; [intros [= ?]; by exists str|]. intros (s & [= <-] & ->). done.
    + split.
      * intros [= ?]. right; right. by exists str.
      * intros [?|[(v & [= <-] & Hv)|(s & [= <-] & ->)]]; [done| |done].
        simpl in Hv. by rewrite decide_False in Hv.
    + split; [intros (e & ?); discriminate|].
      intros (v & [= <-] & _ & Hs). by destruct (Hs str).
  - split; [|split].
    + split; [discriminate|]. intros (s & ? & _). discriminate.
    + split; [discriminate|].
      intros [?|[(v & [= <-] & ?)|(s & ? & _)]]; discriminate.
    + split; [|by eauto]. intros _. eexists. split; [done|]. split; [done|]. discriminate.
  - split; [|split].
    + split; [discriminate|]. intros (s & ? & _). discriminate.
    + split; [discriminate|].
      intros [?|[(v & [= <-] & ?)|(s & ? & _)]]; discriminate.
    + split; [|by eauto]. intros _. eexists. split; [done|]. split; [done|]. discriminate.
Qed.

(** X25. The handler of the text analysis route, on a parsed body whose
    [userText] and [language] are any JSON values or missing.  When the
    conversion of [language] to a property key throws, or [userText] is
    truthy and not a string (so that [userText.trim()] throws), the handler
    throws without answering and without sending anything.  Otherwise it
    answers 400 for a missing, falsy or blank text, sending at most
    translation requests, and 200 for any other text, with the text sent
    to the providers as typed and the language repeated as it came; it
    never answers 500. *)
Theorem analyze_text_route userText language w :
  match language_code_of (default (Json.Str "English") language) with
  | Thrown e => analyze_text_handler_json E userText language w = (Thrown e, w)
  | Returned targetLanguageCode =>
      match missing_or_blank_value "userText" userText with
      | Thrown e => analyze_text_handler_json E userText language w = (Thrown e, w)
      | Returned true =>
          ∃ errorMsg rest,
            analyze_text_handler_json E userText language w
            = (Returned {| echo_status := 400; echo_body := EchoError errorMsg |},
               w ++ rest)
            ∧ forallb is_translation rest = true
      | Returned false =>
          ∃ aiResponse translated rest,
            (provider_answer E (analysis_messages (text_of userText))).1
            = Returned aiResponse
            ∧ analyze_text_handler_json E userText language w
              = (Returned
                   {| echo_status := 200;
                      echo_body := EchoAnalysis translated
                                     (default (Json.Str "English") language)
                                     (text_of userText) (text_of userText)
                                     aiResponse |},
                 (w ++ map Service
                         (provider_answer E (analysis_messages (text_of userText))).2)
                 ++ rest)
            ∧ forallb is_translation rest = true
      end
  end.
Proof.
  unfold analyze_text_handler_json.
  destruct (language_code_of _) as [target|e]; [|reflexivity].
  destruct (missing_or_blank_value "userText" userText) as [[|]|e]; [| |reflexivity];
    rewrite !bind_lift_returned.
  - unfold bind.
    match goal with |- context [translateText E ?a ?t ?s ?w0] =>
      destruct (translateText_cases E a t s w0) as (v & rest & Heq & _ & Htr & _)
    end.
    rewrite Heq. simpl. eauto.
  - unfold try_catch, bind at 1. rewrite translateText_into_english.
    fold (analysis_messages (text_of userText)).
    unfold bind at 1. rewrite getSarvamChatResponse_via.
    destruct (provider_answer_returns E (analysis_messages (text_of userText))) as [a Ha].
    rewrite Ha. unfold bind.
    match goal with |- context [translateText E a ?t ?s ?w0] =>
      destruct (translateText_cases E a t s w0) as (v & rest & Heq & _ & Htr & _)
    end.
    rewrite Heq. simpl. exists a, v, rest. auto.
Qed.

(** X26. The handler of the translation route, on a parsed body whose
    [text], [targetLanguage] and [sourceLanguage] are any JSON values or
    missing.  When the conversion of one of the languages to a property
    key throws, or [text] is truthy and not a string (so that
    [text.trim()] throws), the handler throws without answering and
    without sending anything.  Otherwise it never answers 500: a missing,
    falsy or blank text gets 400 and no request; any other text gets 200,
    with the text itself as its translation when the target is English
    (then nothing is sent) or when the translation service fails. *)
Theorem translate_route text targetLanguage sourceLanguage w :
  match language_code_of (default (Json.Str "English") targetLanguage) with
  | Thrown e =>
      translate_handler_json E text targetLanguage sourceLanguage w = (Thrown e, w)
  | Returned targetLangCode =>
      match language_code_of (default (Json.Str "English") sourceLanguage) with
      | Thrown e =>
          translate_handler_json E text targetLanguage sourceLanguage w = (Thrown e, w)
      | Returned sourceLangCode =>
          match missing_or_blank_value "text" text with
          | Thrown e =>
              translate_handler_json E text targetLanguage sourceLanguage w
              = (Thrown e, w)
          | Returned true =>
              translate_handler_json E text targetLanguage sourceLanguage w
              = (Returned {| echo_status := 400;
                             echo_body := EchoError "No text provided for translation." |},
                 w)
          | Returned false =>
              ∃ translatedText rest,
                translate_handler_json E text targetLanguage sourceLanguage w
                = (Returned
                     {| echo_status := 200;
                        echo_body := EchoTranslation (text_of text) translatedText
                                       (default (Json.Str "English") sourceLanguage)
                                       (default (Json.Str "English") targetLanguage) |},
                   w ++ rest)
                ∧ forallb is_translation rest = true
                ∧ (targetLangCode = Code "en-IN" →
                   translatedText = text_of text ∧ rest = [])
                ∧ (translation_unavailable E → translatedText = text_of text)
          end
      end
  end.
Proof.
  unfold translate_handler_json.
  destruct (language_code_of (default (Json.Str "English") targetLanguage))
    as [target|e]; [|reflexivity].
  destruct (language_code_of (default (Json.Str "English") sourceLanguage))
    as [source|e]; [|reflexivity].
  destruct (missing_or_blank_value "text" text) as [[|]|e]; [reflexivity| |reflexivity].
  rewrite !bind_lift_returned. unfold try_catch, bind.
  match goal with |- context [translateText E ?a ?t ?s ?w0] =>
    destruct (translateText_cases E a t s w0) as (v & rest & Heq & _ & Htr & Hv & Hrest)
  end.
  rewrite Heq. simpl. exists v, rest. split; [reflexivity|]. split; [done|].
  split; [|by auto].
  intros Hen. split; [by apply Hv; left|by apply Hrest].
Qed.

End RouteTheorems.

(** Outside the table and the members of [Object.prototype], every
    language is English. *)
Lemma unknown_language_is_english language :
  language ∉ (Multilingual.LANGUAGES).*1 →
  language ∉ Session.object_prototype_keys →
  Multilingual.language_code language = Multilingual.Code "en-IN".
Proof.
  intros Hl Hk. unfold Multilingual.language_code.
  assert (Multilingual.own_code Multilingual.LANGUAGES language = None) as ->.
  { revert Hl. generalize Multilingual.LANGUAGES.
    induction l as [|[name c] l IH]; intros Hl; [done|]. simpl.
    rewrite decide_False.
    - apply IH. intros Hin. apply Hl. simpl. apply elem_of_cons. by right.
    - intros <-. apply Hl. simpl. apply elem_of_cons. by left. }
  by rewrite decide_False.
Qed.

(** * Properties of the chat area of the translation revision *)

Section LanguageClientProperties.
Import LanguageClient.

(** X27. When no chat is current and [createNewChat] returns the id of the
    new chat, a send throws before anything is shown or sent, with the
    processing flag up; from then on every send returns at once. *)
Theorem first_send_without_chat_fails E E' w id :
  sending_blocked (ui w) = false →
  currentChat E = None → createNewChat E = ChatId id →
  handleSendMessage E w
  = (Thrown (JsError (Some "Function not implemented.")),
     World (processing (ui w)) (effects w ++ [CreateNewChat]))
  ∧ handleSendMessage E' (World (processing (ui w)) (effects w ++ [CreateNewChat]))
    = (Returned tt, World (processing (ui w)) (effects w ++ [CreateNewChat])).
Proof.
  destruct w as [[iv sf ip sc lang sl] effs]. unfold sending_blocked. simpl.
  intros Hgo Hc Hn. split.
  - unfold handleSendMessage, bind at 1, read. simpl.
    unfold bind at 1. simpl. unfold bind at 1. simpl. rewrite Hgo.
    unfold bind at 1, setIsProcessing, update. simpl.
    unfold bind at 1. rewrite Hc, Hn. reflexivity.
  - unfold handleSendMessage, bind, read, processing. simpl.
    by rewrite orb_true_r.
Qed.


End LanguageClientProperties.

Section MultilingualEndToEnd.
Import LanguageClient.


End MultilingualEndToEnd.

Section MultilingualUpload.
Import LanguageClient.


End MultilingualUpload.

(** * The further properties at concrete inputs *)

Section MoreInstances.
Import Session.

Lemma stored_sessions_have_timers_witness :
  ∃ d, (d, sample_uuid) ∈ timers one_session
       ∧ now one_session < d ∧ d ≤ now one_session + TTL.
Proof.
  apply (stored_sessions_have_timers one_session sample_uuid lease).
  - by exists [Upload (parsed_world lease) pdf_upload].
  - reflexivity.
Defined.

Lemma idle_store_is_purged_witness :
  documentContextStore
    (run [Chat (parsed_world lease) (follow_up sample_uuid "What is the rent?");
          Advance TTL] one_session)
  = ∅.
Proof.
  apply (idle_store_is_purged one_session).
  - by exists [Upload (parsed_world lease) pdf_upload].
  - repeat constructor.
  - vm_compute. discriminate.
Defined.

Lemma document_text_is_immutable_witness :
  documentContextStore (run [Advance 5] one_session) !! sample_uuid = Some lease
  ∨ documentContextStore (run [Advance 5] one_session) !! sample_uuid = None.
Proof.
  apply (document_text_is_immutable sample_uuid lease one_session [Advance 5]).
  - repeat constructor; discriminate.
  - reflexivity.
Defined.

Lemma upload_leaves_other_sessions_witness :
  documentContextStore
    (step one_session (Upload (corrupted_world "bad XRef entry") pdf_upload))
    !! "another-id"
  = documentContextStore one_session !! "another-id".
Proof.
  apply (upload_leaves_other_sessions (corrupted_world "bad XRef entry") pdf_upload
           one_session "another-id").
  discriminate.
Defined.

Lemma chat_route_answers_witness :
  chat_handler_json (parsed_world lease)
    (Some (Json.Object [("toString", Json.Number false "1")]))
    (Some (Json.Str "What is the rent?"))
    (World one_session [])
  = (Thrown (TypeError "Cannot convert object to primitive value"),
     World one_session []).
Proof.
  exact (chat_route_answers (parsed_world lease)
           (Some (Json.Object [("toString", Json.Number false "1")]))
           (Some (Json.Str "What is the rent?"))
           (World one_session [])).
Defined.

Lemma chat_route_rejects_incomplete_witness :
  (chat_handler_json (parsed_world lease)
     (Some (Json.Number true "0")) (Some (Json.Str "What is the rent?"))
     (World one_session [])).2
  = World one_session [].
Proof.
  apply (chat_route_rejects_incomplete (parsed_world lease)
           (Some (Json.Number true "0")) (Some (Json.Str "What is the rent?"))
           (World one_session [])).
  left. reflexivity.
Defined.


End MoreInstances.

Section ClientInstances.
Import Client.

Lemma handleSendMessage_sends_witness :
  (handleSendMessage (browser (parsed_world lease) one_session)
     (World (asking (Some sample_uuid)) [])).1
  = Returned tt.
Proof.
  destruct (handleSendMessage_sends (browser (parsed_world lease) one_session)
              (World (asking (Some sample_uuid)) []) eq_refl)
    as (reply & id & ->).
  reflexivity.
Defined.

Lemma handleSendMessage_blocked_iff_witness :
  handleSendMessage (browser (parsed_world lease) one_session)
    (World (State "   " [] false true None) [])
  = (Returned tt, World (State "   " [] false true None) []).
Proof.
  apply (handleSendMessage_blocked_iff (browser (parsed_world lease) one_session)
           (World (State "   " [] false true None) [])).
  reflexivity.
Defined.

Lemma client_upload_establishes_session_witness :
  uploadAndProcessFile (browser (parsed_world lease) Session.init) lease_attachment
    (World (asking None) [])
  = (Returned "Summary",
     World (asking (Some sample_uuid)) [Fetch (PostUpload upload_url lease_file)]).
Proof.
  apply (client_upload_establishes_session (browser (parsed_world lease) Session.init)
           (parsed_world lease) Session.init lease_attachment (asking None) []
           {| Session.text := lease; Session.numpages := 1 |} "Summary");
    reflexivity.
Defined.

Lemma client_follow_up_lifecycle_witness :
  handleFollowUpQuestion
    (browser (parsed_world lease)
       (Session.run [Session.Advance Session.TTL]
          (Session.step Session.init
             (arrival (parsed_world lease) (PostUpload upload_url lease_file)))))
    "What is the rent?" (World (asking (Some sample_uuid)) [])
  = (Returned (Some "Error getting answer: Your document session has expired or is invalid. Please upload the document again."),
     World (asking (Some sample_uuid))
       [Fetch (PostChat chat_url sample_uuid "What is the rent?")]).
Proof.
  apply (client_follow_up_lifecycle
           (browser (parsed_world lease)
              (Session.run [Session.Advance Session.TTL]
                 (Session.step Session.init
                    (arrival (parsed_world lease) (PostUpload upload_url lease_file)))))
           (parsed_world lease) (parsed_world lease) Session.init
           [Session.Advance Session.TTL] lease_attachment (asking (Some sample_uuid)) []
           {| Session.text := lease; Session.numpages := 1 |} "What is the rent?").
  - by exists [].
  - reflexivity.
  - discriminate.
  - reflexivity.
  - apply not_elem_of_nil.
  - repeat constructor; discriminate.
  - reflexivity.
  - discriminate.
  - reflexivity.
  - vm_compute. discriminate.
Defined.

Lemma failed_upload_keeps_previous_session_witness :
  ∃ msg,
    Session.body extraction_failure = Session.JsonError msg
    ∧ uploadAndProcessFile (browser (corrupted_world "bad XRef entry") one_session)
        lease_attachment (World (asking (Some sample_uuid)) [])
      = (Returned ("Error processing file: " +:+ msg),
         World (asking (Some sample_uuid)) [Fetch (PostUpload upload_url lease_file)]).
Proof.
  apply (failed_upload_keeps_previous_session
           (browser (corrupted_world "bad XRef entry") one_session)
           (corrupted_world "bad XRef entry") one_session lease_attachment
           (asking (Some sample_uuid)) [] extraction_failure).
  - reflexivity.
  - reflexivity.
  - discriminate.
Defined.

Lemma client_follow_up_is_complete_witness :
  is_blank "What is the rent?" = false ∧ sample_uuid ≠ EmptyString
  ∧ (Session.chat_handler (parsed_world lease)
       {| Session.sessionId := Some sample_uuid;
          Session.question := Some "What is the rent?" |}
       (Session.World one_session [])).1
    ≠ Returned fields_required.
Proof.
  apply (client_follow_up_is_complete (asking (Some sample_uuid)) sample_uuid
           "What is the rent?" (parsed_world lease) (Session.World one_session []));
    reflexivity.
Defined.

End ClientInstances.

Section MultilingualInstances.
Import Multilingual.

Lemma chat_route_forwards_untranslated_witness :
  ∃ translated aiResponse,
    (chat_handler services_up hindi_question []).1
    = Returned {| status := 200;
                  body := JsonChat translated "Hindi" "kiraya kitna hai?"
                            "kiraya kitna hai?" aiResponse |}.
Proof.
  destruct (chat_route_forwards_untranslated services_up hindi_question
              "kiraya kitna hai?" [] eq_refl eq_refl)
    as (a & t & rest & _ & Heq & _).
  exists t, a. rewrite Heq. reflexivity.
Defined.

Lemma chat_route_in_english_witness :
  ∃ aiResponse,
    (provider_answer services_up (chat_messages [] "kiraya kitna hai?")).1
    = Returned aiResponse
    ∧ chat_handler services_up klingon_question []
      = (Returned {| status := 200;
                     body := JsonChat aiResponse "Klingon" "kiraya kitna hai?"
                               "kiraya kitna hai?" aiResponse |},
         [] ++ map Service
                 (provider_answer services_up (chat_messages [] "kiraya kitna hai?")).2).
Proof.
  apply (chat_route_in_english services_up klingon_question "kiraya kitna hai?" []);
    reflexivity.
Defined.


Lemma chat_route_survives_outage_witness :
  (chat_handler services_down hindi_question []).1
  = Returned {| status := 200;
                body := JsonChat apology "Hindi" "kiraya kitna hai?"
                          "kiraya kitna hai?" apology |}.
Proof.
  apply (chat_route_survives_outage services_down hindi_question "kiraya kitna hai?" []);
    first [reflexivity | exact I | intros body; exact I].
Defined.

Lemma upload_route_forwards_question_witness :
  ∃ translated,
    (upload_handler services_up hindi_upload []).1
    = Returned {| status := 200;
                  body := JsonUpload translated 1 "lease.pdf" "Hindi"
                            "kiraya kitna hai?" "kiraya kitna hai?" |}.
Proof.
  destruct (upload_route_forwards_question services_up hindi_upload
              (UploadedFile.mk "%PDF-1.4" "lease.pdf")
              {| Session.text := lease; Session.numpages := 1 |} [] eq_refl eq_refl)
    as (a & t & rest & _ & Heq & _).
  exists t. rewrite Heq. reflexivity.
Defined.


Lemma analyze_text_route_witness :
  analyze_text_handler_json services_up
    (Some (Json.Array [Json.Str "rent"])) (Some (Json.Str "Hindi")) []
  = (Thrown (TypeError "userText.trim is not a function"), []).
Proof.
  exact (analyze_text_route services_up
           (Some (Json.Array [Json.Str "rent"])) (Some (Json.Str "Hindi")) []).
Defined.

Lemma translate_route_witness :
  translate_handler_json services_up
    (Some (Json.Str "rent")) (Some (Json.Object [("toString", Json.Null)]))
    (Some (Json.Str "Hindi")) []
  = (Thrown (TypeError "Cannot convert object to primitive value"), []).
Proof.
  exact (translate_route services_up
           (Some (Json.Str "rent")) (Some (Json.Object [("toString", Json.Null)]))
           (Some (Json.Str "Hindi")) []).
Defined.

End MultilingualInstances.

Section LanguageClientInstances.
Import LanguageClient.

Lemma first_send_without_chat_fails_witness :
  handleSendMessage (multilingual_browser services_up None (ChatId "chat-1"))
    (World (asking_in "Hindi") [])
  = (Thrown (JsError (Some "Function not implemented.")),
     World (processing (asking_in "Hindi")) [CreateNewChat]).
Proof.
  apply (first_send_without_chat_fails
           (multilingual_browser services_up None (ChatId "chat-1"))
           (multilingual_browser services_up None (ChatId "chat-1"))
           (World (asking_in "Hindi") []) "chat-1"); reflexivity.
Defined.




End LanguageClientInstances.
